(** * pushy: the connection core ([pushy/protocol/baseconnection.py])

    A shallow embedding of [BaseConnection]: the value marshaler
    ([__marshal] / [__unmarshal]), the response-handler registry, the
    scheduling counters and the dispatch glue ([__handle]), followed by
    the properties the specification states about them.

    One thread's code is modelled as a function on the connection state.
    Where the Python code would park the thread ([Condition.wait],
    [Event.wait]) the function stops with the outcome [Blocked]: the state
    it returns is the state the other threads see. *)

From Stdlib Require Import ZArith NArith Lia List Bool.
From Stdlib Require Import Strings.Byte.
From stdpp Require Import base option list gmap.

Local Open Scope Z_scope.
Local Set Warnings "-register-all".

(** ** Byte strings *)

Abbreviation bytes := (list byte).

#[global] Instance byte_eq_decision : EqDecision byte := byte_eq_dec.

(** [str.startswith]. *)
Fixpoint startswith (s prefix : bytes) : bool :=
  match prefix, s with
  | [], _ => true
  | p :: prefix', c :: s' => Byte.eqb c p && startswith s' prefix'
  | _ :: _, [] => false
  end.

(** The four payload tags. *)
Definition tag_s : byte := "s"%byte.
Definition tag_t : byte := "t"%byte.
Definition tag_p : byte := "p"%byte.
Definition tag_o : byte := "o"%byte.

(** ** Errors and outcomes *)

(** Python values.  [PyImm] stands for a value of one of the other builtin
    immutable types (None, bool, long, float, complex, unicode, buffer,
    slice, frozenset): its type and a number telling the values of that
    type apart.  [PyObject] is an instance of any other class. *)
Inductive imm_type :=
| i_unicode | i_slice | i_frozenset | i_float | i_long | i_complex
| i_bool | i_buffer | i_NoneType.

Inductive pyobj :=
| PyInt (n : Z)
| PyStr (s : bytes)
| PyImm (ty : imm_type) (content : Z)
| PyTuple (items : list pyobj)
| PyObject (ident : Z).

Inductive pytype :=
| t_unicode | t_slice | t_frozenset | t_float | t_basestring | t_long
| t_str | t_int | t_complex | t_bool | t_buffer | t_NoneType
| t_tuple | t_instance.

#[global] Instance pytype_eq_decision : EqDecision pytype.
Proof. solve_decision. Defined.

#[global] Instance imm_type_eq_decision : EqDecision imm_type.
Proof. solve_decision. Defined.

Definition imm_pytype (ty : imm_type) : pytype :=
  match ty with
  | i_unicode => t_unicode | i_slice => t_slice | i_frozenset => t_frozenset
  | i_float => t_float | i_long => t_long | i_complex => t_complex
  | i_bool => t_bool | i_buffer => t_buffer | i_NoneType => t_NoneType
  end.

(** [type(obj)]. *)
Definition type_of (obj : pyobj) : pytype :=
  match obj with
  | PyInt _ => t_int
  | PyStr _ => t_str
  | PyImm ty _ => imm_pytype ty
  | PyTuple _ => t_tuple
  | PyObject _ => t_instance
  end.

(** The module constant [marshallable_types]. *)
Definition marshallable_types : list pytype :=
  [t_unicode; t_slice; t_frozenset; t_float; t_basestring; t_long; t_str;
   t_int; t_complex; t_bool; t_buffer; t_NoneType].

(** Exceptions.  [ConnectionClosed] is the [Exception] the code raises with
    the message "Connection is closed"; [Failure e] is an exception object
    raised by code outside the connection (a request handler, a remote
    exception being re-raised); [SystemExit code] is the interpreter's exit
    request. *)
Inductive exn :=
| ValueError
| KeyError
| IndexError
| AttributeError
| TypeError
| StructError
| CodecError
| ConnectionClosed
| Failure (e : pyobj)
| SystemExit (code : pyobj).

(** Where a thread parks. *)
Inductive blockpoint :=
| OnCondition            (* [self.__processing_condition.wait()] *)
| OnHandler (h : nat)    (* [handler.wait()] *)
| OnPendingProxy (k : pyobj) (* [event.wait()] in [__unmarshal] *)
| OnRecv.                   (* the read of [__recv] *)

Inductive outcome (A : Type) :=
| Return (a : A)
| Raise (e : exn)
| Blocked (b : blockpoint)
| OutOfFuel.
Arguments Return {A} a.
Arguments Raise {A} e.
Arguments Blocked {A} b.
Arguments OutOfFuel {A}.

(** ** [struct.pack(">I", n)] and [struct.unpack(">I", s)] *)

Definition byte_of_Z (z : Z) : byte :=
  match Byte.of_N (Z.to_N (z mod 256)) with
  | Some b => b
  | None => Byte.x00
  end.

Definition Z_of_byte (b : byte) : Z := Z.of_N (Byte.to_N b).

Definition pack_u32 (n : Z) : outcome bytes :=
  if bool_decide (0 <= n < 2 ^ 32) then
    Return [byte_of_Z (n / 2 ^ 24); byte_of_Z (n / 2 ^ 16);
            byte_of_Z (n / 2 ^ 8); byte_of_Z n]
  else Raise StructError.

Definition unpack_u32 (s : bytes) : outcome Z :=
  match s with
  | [b3; b2; b1; b0] =>
      Return (Z_of_byte b3 * 2 ^ 24 + Z_of_byte b2 * 2 ^ 16
              + Z_of_byte b1 * 2 ^ 8 + Z_of_byte b0)
  | _ => Raise StructError
  end.

(** [struct.calcsize(">I")]. *)
Definition size_size : nat := 4%nat.

(** ** Equality of values (used for dictionary keys) *)

Fixpoint pyobj_eqb (a b : pyobj) : bool :=
  match a, b with
  | PyInt n, PyInt m => bool_decide (n = m)
  | PyStr s, PyStr t => bool_decide (s = t)
  | PyImm ty c, PyImm ty' c' => bool_decide (ty = ty') && bool_decide (c = c')
  | PyTuple xs, PyTuple ys =>
      (fix go (xs ys : list pyobj) : bool :=
         match xs, ys with
         | [], [] => true
         | x :: xs', y :: ys' => pyobj_eqb x y && go xs' ys'
         | _, _ => false
         end) xs ys
  | PyObject i, PyObject j => bool_decide (i = j)
  | _, _ => false
  end.

(** ** A state-and-exception monad for the connection's code *)

Definition M (S A : Type) : Type := S -> outcome A * S.

Definition ret {S A} (a : A) : M S A := fun s => (Return a, s).
Definition raise {S A} (e : exn) : M S A := fun s => (Raise e, s).
Definition block {S A} (b : blockpoint) : M S A := fun s => (Blocked b, s).
Definition get {S} : M S S := fun s => (Return s, s).
Definition modify {S} (f : S -> S) : M S unit := fun s => (Return tt, f s).

Definition bind {S A B} (m : M S A) (k : A -> M S B) : M S B :=
  fun s =>
    match m s with
    | (Return a, s') => k a s'
    | (Raise e, s') => (Raise e, s')
    | (Blocked b, s') => (Blocked b, s')
    | (OutOfFuel, s') => (OutOfFuel, s')
    end.

(** A pure computation that may raise. *)
Definition lift {S A} (o : outcome A) : M S A := fun s => (o, s).

(** [try: m  except: h e]. *)
Definition try_except {S A} (m : M S A) (h : exn -> M S A) : M S A :=
  fun s =>
    match m s with
    | (Raise e, s') => h e s'
    | r => r
    end.

Declare Scope conn_scope.
Delimit Scope conn_scope with conn.
Notation "x <- m ;; k" := (bind m (fun x => k))
  (at level 100, m at next level, right associativity) : conn_scope.
Notation "m ;;; k" := (bind m (fun _ => k))
  (at level 100, right associativity) : conn_scope.
Local Open Scope conn_scope.

(** ** External collaborators

    What the connection consumes from outside this file: the binary value
    codec (Python's [marshal] module), the runtime's [id], the proxy module
    ([get_opmask], [ProxyType.get], the [Proxy] factory) and the message
    module ([MessageType], [message_types]). *)

(** Modelled from the spec: the message types of [pushy.protocol.message]
    form a closed set, a family of request types told apart by their code,
    and [response], [exception] and [syncrequest]. *)
Module MessageType.
Inductive t :=
| response
| exception
| syncrequest
| request (op : Z).
End MessageType.

#[global] Instance MessageType_eq_decision : EqDecision MessageType.t.
Proof. solve_decision. Defined.

(** The module constant [response_types]. *)
Definition response_types : list MessageType.t :=
  [MessageType.response; MessageType.exception].

(** [m.type in response_types]. *)
Definition in_response_types (t : MessageType.t) : bool :=
  bool_decide (t ∈ response_types).

Record Message := { mtype : MessageType.t; payload : bytes }.

(** What [ProxyType.get] returns: a kind, or a kind with constructor args. *)
Inductive proxy_result :=
| Kind (obj_type : Z)
| KindArgs (obj_type : Z) (args : pyobj).

Record Externals := {
  dumps : pyobj -> outcome bytes;       (* [marshal.dumps(obj, 0)] *)
  loads : bytes -> outcome pyobj;       (* [marshal.loads(buffer)] *)
  py_id : pyobj -> Z;                   (* [id(obj)] *)
  get_opmask : pyobj -> Z;
  ProxyType_get : pyobj -> proxy_result;
  Proxy : pyobj -> pyobj -> pyobj -> option pyobj -> pyobj;
  code : MessageType.t -> Z;            (* [message_type.code] *)
  message_types : Z -> option MessageType.t;  (* [message_types[code]] *)
  exc_object : exn -> pyobj             (* the exception instance caught *)
}.

(** ** The proxy tables *)

Record tables := {
  proxies : list (pyobj * pyobj);
  pending_proxies : list pyobj;
  proxy_ids : gmap Z pyobj;
  proxied_objects : gmap Z pyobj
}.

Definition set_proxied_objects (f : gmap Z pyobj -> gmap Z pyobj)
    (tb : tables) : tables :=
  {| proxies := proxies tb; pending_proxies := pending_proxies tb;
     proxy_ids := proxy_ids tb; proxied_objects := f (proxied_objects tb) |}.

Definition set_pending_proxies (f : list pyobj -> list pyobj)
    (tb : tables) : tables :=
  {| proxies := proxies tb; pending_proxies := f (pending_proxies tb);
     proxy_ids := proxy_ids tb; proxied_objects := proxied_objects tb |}.

(** Dictionary lookup and membership with keys that are arbitrary values. *)
Fixpoint dict_get (d : list (pyobj * pyobj)) (k : pyobj) : option pyobj :=
  match d with
  | [] => None
  | (k', v) :: d' => if pyobj_eqb k' k then Some v else dict_get d' k
  end.

Fixpoint dict_set (d : list (pyobj * pyobj)) (k v : pyobj)
    : list (pyobj * pyobj) :=
  match d with
  | [] => [(k, v)]
  | (k', v') :: d' =>
      if pyobj_eqb k' k then (k', v) :: d' else (k', v') :: dict_set d' k v
  end.

Definition key_in (ks : list pyobj) (k : pyobj) : bool :=
  existsb (fun k' => pyobj_eqb k' k) ks.

Definition key_del (ks : list pyobj) (k : pyobj) : list pyobj :=
  filter (fun k' => pyobj_eqb k' k = false) ks.

(** The identities stored in [proxied_objects] are the ints [id] returns; a
    decoded identity finds an entry when it is that int.  A long, float or
    bool that compares equal to a stored int would find the entry too; the
    numeric value of such a key is not part of [pyobj], and the statements
    about this lookup are about int keys. *)
Definition lookup_identity (d : gmap Z pyobj) (k : pyobj) : option pyobj :=
  match k with
  | PyInt i => d !! i
  | _ => None
  end.

(** ** The value marshaler *)

Section Marshal.
Variable E : Externals.

Definition tagged (t : byte) (o : outcome bytes) : outcome bytes :=
  match o with
  | Return b => Return (t :: b)
  | Raise e => Raise e
  | Blocked b => Blocked b
  | OutOfFuel => OutOfFuel
  end.

(** The first [try] of [__marshal]: [None] when control falls out of it,
    either because the type is not marshallable or because the codec
    raised [ValueError]. *)
Definition marshal_simple (obj : pyobj) : option (outcome bytes) :=
  if bool_decide (type_of obj ∈ marshallable_types) then
    match dumps E obj with
    | Raise ValueError => None
    | o => Some (tagged tag_s o)
    end
  else None.

Section Body.
(** The recursive calls [self.__marshal(...)]. *)
Variable rec : pyobj -> M tables bytes.

(** [for item in obj: ...] of the tuple branch. *)
Fixpoint marshal_items (items : list pyobj) (acc : bytes) : M tables bytes :=
  match items with
  | [] => ret acc
  | item :: rest =>
      part <- rec item ;;
      size <- lift (pack_u32 (Z.of_nat (length part))) ;;
      marshal_items rest (acc ++ size ++ part)
  end.

(** Lines 449-473: marshal by identity. *)
Definition marshal_by_identity (obj : pyobj) : M tables bytes :=
  let i := py_id E obj in
  tb <- get ;;
  if bool_decide (is_Some (proxied_objects tb !! i)) then
    lift (tagged tag_p (dumps E (PyInt i)))
  else
    match proxy_ids tb !! i with
    | Some remote => lift (tagged tag_o (dumps E remote))
    | None =>
        let opmask := get_opmask E obj in
        dumps_args <-
          match ProxyType_get E obj with
          | KindArgs obj_type args =>
              a <- rec args ;;
              ret (PyTuple [PyInt i; PyInt opmask; PyInt obj_type; PyStr a])
          | Kind obj_type =>
              ret (PyTuple [PyInt i; PyInt opmask; PyInt obj_type])
          end ;;
        modify (set_proxied_objects (fun d => <[i := obj]> d)) ;;;
        lift (tagged tag_p (dumps E dumps_args))
    end.

Definition marshal_body (obj : pyobj) : M tables bytes :=
  match marshal_simple obj with
  | Some o => lift o
  | None =>
      match obj with
      | PyTuple items =>
          try_except (marshal_items items [tag_t])
            (fun e =>
               match e with
               | ValueError => marshal_by_identity obj
               | _ => raise e
               end)
      | _ => marshal_by_identity obj
      end
  end.
End Body.

(** [BaseConnection.__marshal]; [fuel] bounds the depth of the calls. *)
Fixpoint marshal (fuel : nat) (obj : pyobj) : M tables bytes :=
  match fuel with
  | O => lift OutOfFuel
  | S n => marshal_body (marshal n) obj
  end.

(** ** The unmarshaler *)

(** [__register_proxy]. *)
Definition register_proxy (proxy remote_id : pyobj) (tb : tables) : tables :=
  {| proxies := dict_set (proxies tb) remote_id proxy;
     pending_proxies := pending_proxies tb;
     proxy_ids := <[py_id E proxy := remote_id]> (proxy_ids tb);
     proxied_objects := proxied_objects tb |}.

Section UBody.
Variable rec : bytes -> M tables pyobj.

(** The [while len(payload) > 0] loop of the tuple branch; every round
    consumes at least the four bytes of a length, so [length payload]
    rounds are enough. *)
Fixpoint unmarshal_parts (rounds : nat) (payload : bytes)
    (parts : list pyobj) : M tables pyobj :=
  match payload with
  | [] => ret (PyTuple parts)
  | _ :: _ =>
      match rounds with
      | O => lift OutOfFuel
      | S rounds' =>
          size <- lift (unpack_u32 (take size_size payload)) ;;
          let payload1 := drop size_size payload in
          v <- rec (take (Z.to_nat size) payload1) ;;
          unmarshal_parts rounds' (drop (Z.to_nat size) payload1)
            (parts ++ [v])
      end
  end.

(** Modelled from the spec: the [Proxy] factory of
    [pushy.protocol.proxy] builds the stand-in and calls the register
    callback, which inserts it into [proxies] and [proxy_ids]. *)
Definition new_proxy (id0 opmask kind : pyobj) (args : option pyobj)
    : M tables pyobj :=
  let p := Proxy E id0 opmask kind args in
  modify (register_proxy p id0) ;;;
  ret p.

(** The branch for tag [p].  The nested call [self.__unmarshal(id_[3])]
    starts with [payload.startswith]: on a value without that attribute it
    raises [AttributeError].  The characters of a unicode string are not
    part of [pyobj], so what the call does on one is not modelled, and the
    statements about this branch leave such an element out. *)
Definition unmarshal_proxy (rest : bytes) : M tables pyobj :=
  id_ <- lift (loads E rest) ;;
  match id_ with
  | PyTuple xs =>
      args <-
        (if bool_decide (4 <= length xs)%nat then
           match xs !! 3%nat with
           | Some (PyStr s) => a <- rec s ;; ret (Some a)
           | _ => raise AttributeError
           end
         else ret None) ;;
      match xs with
      | id0 :: opmask :: kind :: _ =>
          p <- new_proxy id0 opmask kind args ;;
          tb <- get ;;
          (if key_in (pending_proxies tb) id0 then
             modify (set_pending_proxies (fun ks => key_del ks id0))
           else ret tt) ;;;
          ret p
      | _ => raise IndexError
      end
  | _ =>
      tb <- get ;;
      match dict_get (proxies tb) id_ with
      | Some p => ret p
      | None =>
          (if key_in (pending_proxies tb) id_ then ret tt
           else modify (set_pending_proxies (fun ks => ks ++ [id_]))) ;;;
          block (OnPendingProxy id_)
      end
  end.

(** The branch for tag [o]. *)
Definition unmarshal_origin (rest : bytes) : M tables pyobj :=
  id_ <- lift (loads E rest) ;;
  tb <- get ;;
  match lookup_identity (proxied_objects tb) id_ with
  | Some obj => ret obj
  | None => raise KeyError
  end.

Definition unmarshal_body (payload : bytes) : M tables pyobj :=
  if startswith payload [tag_s] then
    lift (loads E (drop 1 payload))
  else if startswith payload [tag_t] then
    unmarshal_parts (length payload) (drop 1 payload) []
  else if startswith payload [tag_p] then
    unmarshal_proxy (drop 1 payload)
  else if startswith payload [tag_o] then
    unmarshal_origin (drop 1 payload)
  else raise ValueError.
End UBody.

(** [BaseConnection.__unmarshal]. *)
Fixpoint unmarshal (fuel : nat) (payload : bytes) : M tables pyobj :=
  match fuel with
  | O => lift OutOfFuel
  | S n => unmarshal_body (unmarshal n) payload
  end.

End Marshal.

(** ** Response handlers *)

(** [class ResponseHandler]; [thread] is [thread.get_ident()] of the
    creator. *)
Record ResponseHandler := {
  event : bool;
  message : option Message;
  syncrequest : bool;
  thread : Z
}.

(** ** The connection state

    [response_handlers] holds references into [heap], where the handler
    objects live: a handler is shared between its owner and whichever
    thread delivers to it.  [request_count] is the thread-local counter,
    per thread identity (absent: the attribute is not set).  [istream] are
    the frames still to be read, [ostream] the frames written, [notifies]
    counts the calls of [notify] on the scheduling condition. *)
Record conn := {
  open : bool;
  receiving : bool;
  processing : Z;
  waiting : Z;
  responses : Z;
  requests : list Message;
  response_handlers : list nat;
  heap : nat -> ResponseHandler;
  next_handler : nat;
  request_count : gmap Z Z;
  tabs : tables;
  istream : list Message;
  ostream : list Message;
  notifies : nat
}.

Definition upd_open (f : bool -> bool) (c : conn) : conn :=
  {| open := f (open c); receiving := receiving c;
     processing := processing c; waiting := waiting c;
     responses := responses c; requests := requests c;
     response_handlers := response_handlers c; heap := heap c;
     next_handler := next_handler c; request_count := request_count c;
     tabs := tabs c; istream := istream c; ostream := ostream c;
     notifies := notifies c |}.

Definition upd_receiving (f : bool -> bool) (c : conn) : conn :=
  {| open := open c; receiving := f (receiving c);
     processing := processing c; waiting := waiting c;
     responses := responses c; requests := requests c;
     response_handlers := response_handlers c; heap := heap c;
     next_handler := next_handler c; request_count := request_count c;
     tabs := tabs c; istream := istream c; ostream := ostream c;
     notifies := notifies c |}.

Definition upd_processing (f : Z -> Z) (c : conn) : conn :=
  {| open := open c; receiving := receiving c;
     processing := f (processing c); waiting := waiting c;
     responses := responses c; requests := requests c;
     response_handlers := response_handlers c; heap := heap c;
     next_handler := next_handler c; request_count := request_count c;
     tabs := tabs c; istream := istream c; ostream := ostream c;
     notifies := notifies c |}.

Definition upd_waiting (f : Z -> Z) (c : conn) : conn :=
  {| open := open c; receiving := receiving c; processing := processing c;
     waiting := f (waiting c); responses := responses c;
     requests := requests c; response_handlers := response_handlers c;
     heap := heap c; next_handler := next_handler c;
     request_count := request_count c; tabs := tabs c; istream := istream c;
     ostream := ostream c; notifies := notifies c |}.

Definition upd_responses (f : Z -> Z) (c : conn) : conn :=
  {| open := open c; receiving := receiving c; processing := processing c;
     waiting := waiting c; responses := f (responses c);
     requests := requests c; response_handlers := response_handlers c;
     heap := heap c; next_handler := next_handler c;
     request_count := request_count c; tabs := tabs c; istream := istream c;
     ostream := ostream c; notifies := notifies c |}.

Definition upd_requests (f : list Message -> list Message) (c : conn)
    : conn :=
  {| open := open c; receiving := receiving c; processing := processing c;
     waiting := waiting c; responses := responses c;
     requests := f (requests c); response_handlers := response_handlers c;
     heap := heap c; next_handler := next_handler c;
     request_count := request_count c; tabs := tabs c; istream := istream c;
     ostream := ostream c; notifies := notifies c |}.

Definition upd_response_handlers (f : list nat -> list nat) (c : conn)
    : conn :=
  {| open := open c; receiving := receiving c; processing := processing c;
     waiting := waiting c; responses := responses c; requests := requests c;
     response_handlers := f (response_handlers c); heap := heap c;
     next_handler := next_handler c; request_count := request_count c;
     tabs := tabs c; istream := istream c; ostream := ostream c;
     notifies := notifies c |}.

Definition upd_heap
    (f : (nat -> ResponseHandler) -> (nat -> ResponseHandler)) (c : conn)
    : conn :=
  {| open := open c; receiving := receiving c; processing := processing c;
     waiting := waiting c; responses := responses c; requests := requests c;
     response_handlers := response_handlers c; heap := f (heap c);
     next_handler := next_handler c; request_count := request_count c;
     tabs := tabs c; istream := istream c; ostream := ostream c;
     notifies := notifies c |}.

Definition upd_next_handler (f : nat -> nat) (c : conn) : conn :=
  {| open := open c; receiving := receiving c; processing := processing c;
     waiting := waiting c; responses := responses c; requests := requests c;
     response_handlers := response_handlers c; heap := heap c;
     next_handler := f (next_handler c); request_count := request_count c;
     tabs := tabs c; istream := istream c; ostream := ostream c;
     notifies := notifies c |}.

Definition upd_request_count (f : gmap Z Z -> gmap Z Z) (c : conn) : conn :=
  {| open := open c; receiving := receiving c; processing := processing c;
     waiting := waiting c; responses := responses c; requests := requests c;
     response_handlers := response_handlers c; heap := heap c;
     next_handler := next_handler c; request_count := f (request_count c);
     tabs := tabs c; istream := istream c; ostream := ostream c;
     notifies := notifies c |}.

Definition upd_tabs (f : tables -> tables) (c : conn) : conn :=
  {| open := open c; receiving := receiving c; processing := processing c;
     waiting := waiting c; responses := responses c; requests := requests c;
     response_handlers := response_handlers c; heap := heap c;
     next_handler := next_handler c; request_count := request_count c;
     tabs := f (tabs c); istream := istream c; ostream := ostream c;
     notifies := notifies c |}.

Definition upd_istream (f : list Message -> list Message) (c : conn)
    : conn :=
  {| open := open c; receiving := receiving c; processing := processing c;
     waiting := waiting c; responses := responses c; requests := requests c;
     response_handlers := response_handlers c; heap := heap c;
     next_handler := next_handler c; request_count := request_count c;
     tabs := tabs c; istream := f (istream c); ostream := ostream c;
     notifies := notifies c |}.

Definition upd_ostream (f : list Message -> list Message) (c : conn)
    : conn :=
  {| open := open c; receiving := receiving c; processing := processing c;
     waiting := waiting c; responses := responses c; requests := requests c;
     response_handlers := response_handlers c; heap := heap c;
     next_handler := next_handler c; request_count := request_count c;
     tabs := tabs c; istream := istream c; ostream := f (ostream c);
     notifies := notifies c |}.

Definition upd_notifies (f : nat -> nat) (c : conn) : conn :=
  {| open := open c; receiving := receiving c; processing := processing c;
     waiting := waiting c; responses := responses c; requests := requests c;
     response_handlers := response_handlers c; heap := heap c;
     next_handler := next_handler c; request_count := request_count c;
     tabs := tabs c; istream := istream c; ostream := ostream c;
     notifies := f (notifies c) |}.

(** The state of a fresh connection, [BaseConnection.__init__]. *)
Definition new_handler_object (tid : Z) : ResponseHandler :=
  {| event := false; message := None; syncrequest := false; thread := tid |}.

Definition init : conn :=
  {| open := true; receiving := false; processing := 0; waiting := 0;
     responses := 0; requests := []; response_handlers := [];
     heap := fun _ => new_handler_object 0; next_handler := 0%nat;
     request_count := ∅;
     tabs := {| proxies := []; pending_proxies := []; proxy_ids := ∅;
                proxied_objects := ∅ |};
     istream := []; ostream := []; notifies := 0%nat |}.

(** [None], the value a Python function returns when it falls off its end. *)
Definition PyNone : pyobj := PyImm i_NoneType 0.

(** Run a computation on the proxy tables inside the connection. *)
Definition on_tables {A} (m : M tables A) : M conn A :=
  fun c => let '(r, tb) := m (tabs c) in (r, upd_tabs (fun _ => tb) c).

(** ** Handler objects *)

Definition upd_handler (h : nat) (f : ResponseHandler -> ResponseHandler)
    : M conn unit :=
  modify (upd_heap (fun hp h' => if decide (h' = h) then f (hp h') else hp h')).

(** [ResponseHandler.set(message)]. *)
Definition handler_set (h : nat) (m : option Message) : M conn unit :=
  upd_handler h (fun o =>
    {| event := true;
       message := match m with Some _ => m | None => message o end;
       syncrequest := syncrequest o; thread := thread o |}).

(** [ResponseHandler.clear()]. *)
Definition handler_clear (h : nat) : M conn unit :=
  upd_handler h (fun o =>
    {| event := false; message := None;
       syncrequest := syncrequest o; thread := thread o |}).

(** [ResponseHandler.get()]. *)
Definition handler_get (h : nat) (c : conn) : option Message :=
  if event (heap c h) then message (heap c h) else None.

(** [ResponseHandler.wait()]: parks the thread until the event is set. *)
Definition handler_wait (h : nat) : M conn (option Message) :=
  c <- get ;;
  if event (heap c h) then
    handler_clear h ;;; ret (message (heap c h))
  else block (OnHandler h).

(** [ResponseHandler()] called by thread [tid]. *)
Definition ResponseHandler_new (tid : Z) : M conn nat :=
  c <- get ;;
  let h := next_handler c in
  modify (upd_next_handler S) ;;;
  upd_handler h (fun _ => new_handler_object tid) ;;;
  ret h.

Definition set_syncrequest (h : nat) (b : bool) : M conn unit :=
  upd_handler h (fun o =>
    {| event := event o; message := message o;
       syncrequest := b; thread := thread o |}).

(** [self.__response_handlers[0]]. *)
Definition first_handler : M conn nat :=
  c <- get ;;
  match response_handlers c with
  | h :: _ => ret h
  | [] => raise IndexError
  end.

(** [del self.__response_handlers[0]]. *)
Definition del_first_handler : M conn unit :=
  c <- get ;;
  match response_handlers c with
  | _ :: rest => modify (upd_response_handlers (fun _ => rest))
  | [] => raise IndexError
  end.

(** [if len(self.__response_handlers) > 0:
        self.__response_handlers[0].set()]. *)
Definition wake_first_handler : M conn unit :=
  c <- get ;;
  match response_handlers c with
  | h :: _ => handler_set h None
  | [] => ret tt
  end.

(** [self.__processing_condition.notify()]. *)
Definition notify : M conn unit := modify (upd_notifies S).

(** The scan of [send_request]: the index of the first handler of thread
    [tid], counting from [i]; the length of the list when there is none. *)
Fixpoint first_of_thread (hp : nat -> ResponseHandler) (tid : Z)
    (hs : list nat) (i : nat) : nat :=
  match hs with
  | [] => i
  | h :: hs' =>
      if bool_decide (thread (hp h) = tid) then i
      else first_of_thread hp tid hs' (S i)
  end.

(** [list.insert(i, x)]. *)
Definition list_insert_at {A} (i : nat) (x : A) (l : list A) : list A :=
  take i l ++ x :: drop i l.

(** [getattr(self.__thread_local, "request_count", 0)]. *)
Definition request_count_of (c : conn) (tid : Z) : Z :=
  default 0 (request_count c !! tid).

(** ** The connection's methods *)

Section Connection.
Variable E : Externals.
(** The handlers registered from outside for the request types, by code
    of operation ([message_handlers] is extended by the subclasses); a
    handler runs in the calling thread and may use the connection. *)
Variable request_handler : Z -> option (pyobj -> M conn pyobj).

(** [__recv]: takes the next frame off the input stream; with none there
    the read does not return. *)
Inductive recv_result := Frame (m : Message) | NoFrame.

Definition recv (c : conn) : recv_result * conn :=
  match istream c with
  | m :: rest => (Frame m, upd_istream (fun _ => rest) c)
  | [] => (NoFrame, c)
  end.

(** [__send_message]. *)
Definition send_message (fuel : nat) (message_type : MessageType.t)
    (args : pyobj) : M conn unit :=
  p <- on_tables (marshal E fuel args) ;;
  modify (upd_ostream
            (fun o => o ++ [{| mtype := message_type; payload := p |}])).

(** [send_request], lines 221-225: a request made from inside the
    handler of a request goes out as a syncrequest. *)
Definition rewrap (fuel : nat) (tid : Z) (message_type : MessageType.t)
    (args : pyobj) : M conn (MessageType.t * pyobj) :=
  c <- get ;;
  if bool_decide (request_count_of c tid > 0) then
    a <- on_tables (marshal E fuel args) ;;
    ret (MessageType.syncrequest,
         PyTuple [PyInt (code E message_type); PyStr a])
  else ret (message_type, args).

(** [send_request], lines 228-260: create the handler and enter it in
    [response_handlers]. *)
Definition register_handler (tid : Z) (message_type : MessageType.t)
    : M conn nat :=
  handler <- ResponseHandler_new tid ;;
  (if bool_decide (message_type = MessageType.syncrequest) then
     set_syncrequest handler true ;;;
     modify (upd_waiting (fun w => w + 1)) ;;;
     c <- get ;;
     (if bool_decide (processing c = waiting c) then notify else ret tt) ;;;
     c <- get ;;
     let i := first_of_thread (heap c) tid (response_handlers c) 0 in
     modify (upd_response_handlers (list_insert_at i handler))
   else
     set_syncrequest handler false ;;;
     modify (upd_response_handlers (fun l => l ++ [handler]))) ;;;
  ret handler.

(** [send_request], lines 214-265: the part under the request lock.
    Returns the handler the caller then waits on. *)
Definition send_request_begin (fuel : nat) (tid : Z)
    (message_type : MessageType.t) (args : pyobj) : M conn nat :=
  c <- get ;;
  if negb (open c) then raise ConnectionClosed
  else
    ta <- rewrap fuel tid message_type args ;;
    handler <- register_handler tid (fst ta) ;;
    send_message fuel (fst ta) (snd ta) ;;;
    ret handler.

(** [__send_response]. *)
Definition send_response (fuel : nat) (result : pyobj) : M conn unit :=
  modify (upd_processing (fun p => p - 1)) ;;;
  c <- get ;;
  (if bool_decide (processing c = 0) then notify else ret tt) ;;;
  send_message fuel MessageType.response result.

(** *** [__waitForRequest] *)

(** The condition of the [while] loop at line 301. *)
Definition waitForRequest_guard (c : conn) : bool :=
  (open c && bool_decide (length (requests c) = 0%nat))
  && (receiving c
      || bool_decide (responses c > 0)
      || (bool_decide (processing c > 0)
          && bool_decide (processing c > waiting c))).

(** What the thread does next with the scheduling mutex held. *)
Inductive request_step :=
| StepWait         (* [self.__processing_condition.wait()] *)
| StepClosed       (* [return None] *)
| StepDequeue      (* take the request another thread queued *)
| StepRead.        (* [self.__recv()] *)

Definition waitForRequest_step (c : conn) : request_step :=
  if waitForRequest_guard c then StepWait
  else if negb (open c) then StepClosed
  else if bool_decide (0 < length (requests c))%nat then StepDequeue
  else StepRead.

(** Lines 325-345: what the reader does with the frame it read. *)
Definition waitForRequest_classify (m : Message) : M conn (option Message) :=
  if in_response_types (mtype m) then
    modify (upd_responses (fun r => r + 1)) ;;;
    h <- first_handler ;;
    handler_set h (Some m) ;;;
    ret None
  else if bool_decide (mtype m = MessageType.syncrequest) then
    modify (upd_processing (fun p => p + 1)) ;;;
    h <- first_handler ;;
    handler_set h (Some m) ;;;
    ret None
  else
    c <- get ;;
    (if open c then modify (upd_processing (fun p => p + 1)) else ret tt) ;;;
    wake_first_handler ;;;
    ret (Some m).

(** [try: m  finally: f], the thread still being inside [m] when it is
    parked there. *)
Definition finally {A} (m : M conn A) (f : M conn unit) : M conn A :=
  fun c =>
    match m c with
    | (Return a, c') =>
        match f c' with
        | (Return _, c'') => (Return a, c'')
        | (Raise e, c'') => (Raise e, c'')
        | (Blocked b, c'') => (Blocked b, c'')
        | (OutOfFuel, c'') => (OutOfFuel, c'')
        end
    | (Raise e, c') =>
        match f c' with
        | (Return _, c'') => (Raise e, c'')
        | (Raise e', c'') => (Raise e', c'')
        | (Blocked b, c'') => (Blocked b, c'')
        | (OutOfFuel, c'') => (OutOfFuel, c'')
        end
    | r => r
    end.

Definition waitForRequest : M conn (option Message) :=
  c <- get ;;
  match waitForRequest_step c with
  | StepWait => block OnCondition
  | StepClosed => ret None
  | StepDequeue =>
      modify (upd_processing (fun p => p + 1)) ;;;
      match requests c with
      | request :: rest =>
          modify (upd_requests (fun _ => rest)) ;;;
          wake_first_handler ;;;
          ret (Some request)
      | [] => raise IndexError
      end
  | StepRead =>
      modify (upd_receiving (fun _ => true)) ;;;
      finally
        (fun c => match recv c with
                  | (Frame m, c') => waitForRequest_classify m c'
                  | (NoFrame, c') => (Blocked OnRecv, c')
                  end)
        (modify (upd_receiving (fun _ => false)))
  end.

(** *** [__waitForResponse] *)

Definition is_none {A} (o : option A) : bool :=
  match o with None => true | Some _ => false end.

(** The condition of the [while] loop at line 364; [or] evaluates
    [self.__response_handlers[0]] only when [receiving] is false. *)
Definition waitForResponse_guard (handler : nat) (m : option Message)
    : M conn bool :=
  c <- get ;;
  if open c && is_none m then
    if receiving c then ret true
    else
      first <- first_handler ;;
      ret (negb (bool_decide (handler = first))
           || (bool_decide (processing c > 0)
               && bool_decide (processing c > waiting c)))
  else ret false.

(** The [while] loop at lines 364-380. *)
Fixpoint waitForResponse_loop (rounds : nat) (handler : nat)
    (m : option Message) : M conn (option Message) :=
  g <- waitForResponse_guard handler m ;;
  if g then
    match rounds with
    | O => lift OutOfFuel
    | S rounds' =>
        first <- first_handler ;;
        (if bool_decide (handler = first) then ret tt
         else handler_set first None) ;;;
        m' <- handler_wait handler ;;
        waitForResponse_loop rounds' handler m'
    end
  else ret m.

(** Lines 390-400: read until a response, an exception or a syncrequest
    arrives, queueing the requests read on the way. *)
Fixpoint read_response (stream : list Message) : M conn Message :=
  match stream with
  | [] => block OnRecv
  | m :: rest =>
      modify (upd_istream (fun _ => rest)) ;;;
      first_handler ;;;
      if in_response_types (mtype m)
         || bool_decide (mtype m = MessageType.syncrequest)
      then ret m
      else
        modify (upd_requests (fun q => q ++ [m])) ;;;
        read_response rest
  end.

(** Lines 386-413: the update of the counts once the loop is left. *)
Definition waitForResponse_receive (m : option Message)
    : M conn (option Message) :=
  c <- get ;;
  if is_none m && open c then
    modify (upd_receiving (fun _ => true)) ;;;
    m' <- finally (read_response (istream c))
            (modify (upd_receiving (fun _ => false))) ;;
    (if in_response_types (mtype m') then del_first_handler
     else if bool_decide (mtype m' = MessageType.syncrequest) then
       modify (upd_processing (fun p => p + 1))
     else ret tt) ;;;
    ret (Some m')
  else if open c then
    match m with
    | Some m' =>
        (if in_response_types (mtype m') then
           del_first_handler ;;;
           modify (upd_responses (fun r => r - 1))
         else ret tt) ;;;
        ret m
    | None => ret m
    end
  else ret m.

(** Lines 360-380: take a message that is already there, or wait. *)
Definition waitForResponse_wait (handler : nat) : M conn (option Message) :=
  c <- get ;;
  let m := handler_get handler c in
  (if is_none m then ret tt else handler_clear handler) ;;;
  waitForResponse_loop 2 handler m.

(** Lines 415-423. *)
Definition waitForResponse_finish (handler : nat) (m : option Message)
    : M conn (option Message) :=
  c <- get ;;
  (if syncrequest (heap c handler) then
     modify (upd_waiting (fun w => w - 1))
   else ret tt) ;;;
  c <- get ;;
  if negb (open c) && is_none m then
    del_first_handler ;;;
    raise ConnectionClosed
  else ret m.

Definition waitForResponse (handler : nat) : M conn (option Message) :=
  finally
    (m <- waitForResponse_wait handler ;;
     m <- waitForResponse_receive m ;;
     waitForResponse_finish handler m)
    notify.

(** *** Dispatch *)

(** [__handle_syncrequest], given the dictionary of handlers and the
    unmarshaler it calls. *)
Definition handle_syncrequest
    (handlers : MessageType.t -> option (pyobj -> M conn pyobj))
    (unmarshal_payload : bytes -> M tables pyobj)
    (args : pyobj) : M conn pyobj :=
  match args with
  | PyTuple [real_message_type_code; payload] =>
      match real_message_type_code with
      | PyInt k =>
          match message_types E k with
          | Some real_message_type =>
              match handlers real_message_type with
              | Some h =>
                  match payload with
                  | PyStr p =>
                      a <- on_tables (unmarshal_payload p) ;;
                      h a
                  | _ => raise AttributeError
                  end
              | None => raise KeyError
              end
          | None => raise IndexError
          end
      | _ => raise TypeError
      end
  | PyTuple _ => raise ValueError
  | _ => raise TypeError
  end.

(** [self.message_handlers[t]], with the three handlers of the class
    itself; [None] when the dictionary has no entry.  [fuel] bounds the
    nesting of syncrequests inside syncrequests. *)
Fixpoint message_handlers (fuel : nat) (t : MessageType.t)
    : option (pyobj -> M conn pyobj) :=
  match t with
  | MessageType.response => Some (fun result => ret result)
  | MessageType.exception => Some (fun e => raise (Failure e))
  | MessageType.syncrequest =>
      Some (match fuel with
            | O => fun _ => lift OutOfFuel
            | S n => handle_syncrequest (message_handlers n) (unmarshal E n)
            end)
  | MessageType.request op => request_handler op
  end.

(** Lines 585-586 of [__handle]: unmarshal, then call the handler. *)
Definition dispatch (fuel : nat) (m : Message) : M conn pyobj :=
  args <- on_tables (unmarshal E fuel (payload m)) ;;
  match message_handlers fuel (mtype m) with
  | Some h => h args
  | None => raise KeyError
  end.

(** Lines 599-606: release the processing slot. *)
Definition release_processing : M conn unit :=
  modify (upd_processing (fun p => p - 1)) ;;;
  c <- get ;;
  if bool_decide (processing c = 0) then notify else ret tt.

(** Lines 576-581 and 613-614 of [__handle]: the per-thread depth. *)
Definition enter_handle (tid : Z) (m : Message) (c : conn) : conn :=
  if negb (in_response_types (mtype m)) then
    upd_request_count (fun rc =>
      <[tid := match rc !! tid with Some n => n + 1 | None => 1 end]> rc) c
  else c.

Definition leave_handle (tid : Z) (m : Message) (c : conn) : conn :=
  if negb (in_response_types (mtype m)) then
    upd_request_count (alter (fun n => n - 1) tid) c
  else c.

(** [__handle], run by thread [tid]. *)
Definition handle (fuel : nat) (tid : Z) (m : Message) : M conn pyobj :=
  modify (enter_handle tid m) ;;;
  finally
    (try_except
       (result <- dispatch fuel m ;;
        (if negb (in_response_types (mtype m)) then
           send_response fuel result
         else ret tt) ;;;
        ret result)
       (fun e =>
          match e with
          | SystemExit exit_code =>
              send_response fuel exit_code ;;;
              raise e
          | _ =>
              if bool_decide (mtype m = MessageType.exception) then raise e
              else
                release_processing ;;;
                send_message fuel MessageType.exception (exc_object E e) ;;;
                ret PyNone
          end))
    (modify (leave_handle tid m)).

(** Lines 268-272 of [send_request]: wait, handling the syncrequests that
    arrive in between. *)
Fixpoint send_request_wait (rounds fuel : nat) (tid : Z) (handler : nat)
    : M conn pyobj :=
  m <- waitForResponse handler ;;
  match m with
  | None => raise AttributeError
  | Some m =>
      if bool_decide (mtype m = MessageType.syncrequest) then
        match rounds with
        | O => lift OutOfFuel
        | S rounds' =>
            handle fuel tid m ;;;
            send_request_wait rounds' fuel tid handler
        end
      else handle fuel tid m
  end.

Definition send_request (rounds fuel : nat) (tid : Z)
    (message_type : MessageType.t) (args : pyobj) : M conn pyobj :=
  handler <- send_request_begin fuel tid message_type args ;;
  send_request_wait rounds fuel tid handler.

End Connection.

(** ** A sample instance of the collaborators

    A small codec in the manner of Python 2's [marshal]: ints below 256 and
    byte strings are written after a type byte, the none value as [N], a
    tuple as its elements one after the other, each behind its length; every
    other value, a slice among them, is unmarshallable and raises
    [ValueError].  The decoder reads these forms back, tuples of scalars
    included. *)

Module Sample.

Fixpoint codec_dumps (obj : pyobj) : outcome bytes :=
  match obj with
  | PyInt n =>
      if bool_decide (0 <= n < 256) then Return ["i"%byte; byte_of_Z n]
      else Raise ValueError
  | PyStr s => Return ("s"%byte :: s)
  | PyImm i_NoneType 0 => Return ["N"%byte]
  | PyTuple items =>
      tagged "("%byte
        ((fix go (items : list pyobj) : outcome bytes :=
            match items with
            | [] => Return []
            | x :: items' =>
                match codec_dumps x, go items' with
                | Return a, Return b =>
                    Return (byte_of_Z (Z.of_nat (length a)) :: a ++ b)
                | _, _ => Raise ValueError
                end
            end) items)
  | _ => Raise ValueError
  end.

Definition loads_scalar (b : bytes) : outcome pyobj :=
  match b with
  | [] => Raise CodecError
  | t :: rest =>
      if Byte.eqb t "s"%byte then Return (PyStr rest)
      else if Byte.eqb t "i"%byte then
        match rest with
        | [v] => Return (PyInt (Z_of_byte v))
        | _ => Raise CodecError
        end
      else if Byte.eqb t "N"%byte then
        match rest with [] => Return PyNone | _ => Raise CodecError end
      else Raise CodecError
  end.

Fixpoint loads_items (rounds : nat) (b : bytes) : outcome (list pyobj) :=
  match b, rounds with
  | [], _ => Return []
  | _ :: _, O => Raise CodecError
  | n :: rest, S rounds' =>
      let size := Z.to_nat (Z_of_byte n) in
      match loads_scalar (take size rest),
            loads_items rounds' (drop size rest) with
      | Return v, Return vs => Return (v :: vs)
      | _, _ => Raise CodecError
      end
  end.

Definition codec_loads (b : bytes) : outcome pyobj :=
  match b with
  | t :: rest =>
      if Byte.eqb t "("%byte then
        match loads_items (length rest) rest with
        | Return vs => Return (PyTuple vs)
        | _ => Raise CodecError
        end
      else loads_scalar b
  | [] => Raise CodecError
  end.

(** Objects are named by the number they carry. *)
Definition ident (obj : pyobj) : Z :=
  match obj with
  | PyObject i => i
  | PyImm _ c => 100 + c
  | _ => 200
  end.

Definition type_code (t : MessageType.t) : Z :=
  match t with
  | MessageType.response => 0
  | MessageType.exception => 1
  | MessageType.syncrequest => 2
  | MessageType.request op => 3 + Z.abs op
  end.

Definition type_of_code (k : Z) : option MessageType.t :=
  if bool_decide (k = 0) then Some MessageType.response
  else if bool_decide (k = 1) then Some MessageType.exception
  else if bool_decide (k = 2) then Some MessageType.syncrequest
  else if bool_decide (3 <= k) then Some (MessageType.request (k - 3))
  else None.

Definition externals : Externals :=
  {| dumps := codec_dumps;
     loads := codec_loads;
     py_id := ident;
     get_opmask := fun _ => 0;
     ProxyType_get := fun _ => Kind 0;
     Proxy := fun id0 _ _ _ =>
                match id0 with
                | PyInt i => PyObject (5000 + i)
                | _ => PyObject 5000
                end;
     code := type_code;
     message_types := type_of_code;
     exc_object := fun _ => PyObject 70 |}.

(** Three registered request types: operation 0 echoes its argument,
    operation 1 fails with an exception object, operation 2 asks the
    process to exit with code 3. *)
Definition request_handler (op : Z) : option (pyobj -> M conn pyobj) :=
  if bool_decide (op = 0) then Some (fun args => ret args)
  else if bool_decide (op = 1) then
    Some (fun _ => raise (Failure (PyObject 9)))
  else if bool_decide (op = 2) then
    Some (fun _ => raise (SystemExit (PyInt 3)))
  else None.

(** [slice(1, 2)], say. *)
Definition a_slice : pyobj := PyImm i_slice 12.

(** A connection on which thread 7 and then thread 1 have each sent a
    top-level request (handlers 0 and 1). *)
Definition two_outstanding : conn :=
  snd (send_request_begin externals 2 1 (MessageType.request 0) PyNone
         (snd (send_request_begin externals 2 7 (MessageType.request 0)
                 PyNone init))).

(** A request of operation 1, whose handler fails. *)
Definition failing_request : Message :=
  {| mtype := MessageType.request 1; payload := [tag_s; "N"%byte] |}.

(** The state in which [__waitForRequest] hands a request to its caller:
    one request being processed. *)
Definition request_taken : conn := upd_processing (fun _ => 1) init.

(** A response whose payload starts with none of the four tags. *)
Definition bad_response : Message :=
  {| mtype := MessageType.response; payload := ["x"%byte] |}.

(** Thread 1 makes a top-level request on a fresh connection and the
    peer answers with [bad_response]: the state [send_request] leaves. *)
Definition after_bad_response : conn :=
  snd (send_request externals request_handler 1 2 1 (MessageType.request 0)
         PyNone (upd_istream (fun _ => [bad_response]) init)).

(** Thread 1 is inside the handler of a request that [__waitForRequest]
    returned to it: one request being processed, depth one. *)
Definition serving_state : conn :=
  upd_processing (fun _ => 1)
    (upd_request_count (fun rc => <[1 := 1]> rc) init).

(** The wrapper of a request of operation 0 with argument [None], as
    [send_request] writes it for a nested request. *)
Definition peer_syncrequest : Message :=
  {| mtype := MessageType.syncrequest;
     payload := [ "t"; x00; x00; x00; x03; "s"; "i"; x03;
                  x00; x00; x00; x04; "s"; "s"; "s"; "N" ]%byte |}.

Definition peer_response : Message :=
  {| mtype := MessageType.response; payload := [tag_s; "N"%byte] |}.

(** From [serving_state] thread 1 has sent a nested request (handler 0, a
    syncrequest handler); the peer answers with a syncrequest of its own
    and then with the response. *)
Definition nested_waiting : conn :=
  upd_istream (fun _ => [peer_syncrequest; peer_response])
    (snd (send_request_begin externals 2 1 (MessageType.request 0) PyNone
            serving_state)).

(** [two_outstanding], thread 1 now being inside the handler of a request
    from the peer. *)
Definition nested_state : conn :=
  upd_processing (fun _ => 1)
    (upd_request_count (fun rc => <[1 := 1]> rc) two_outstanding).

End Sample.

(** ** Notions used in the statements *)

(** [__marshal] run on [obj] from the tables [tb_in] gets to line 449 with
    the tables [tb]: the value is not written as a simple one, and if it is
    a tuple, writing it element by element was given up on a [ValueError]. *)
Definition reaches_identity (E : Externals) (fuel : nat) (obj : pyobj)
    (tb_in tb : tables) : Prop :=
  marshal_simple E obj = None
  /\ match obj with
     | PyTuple items =>
         marshal_items (marshal E fuel) items [tag_t] tb_in
         = (Raise ValueError, tb)
     | _ => tb = tb_in
     end.

(** The introduction tuple of a new proxy. *)
Definition introduction (E : Externals) (obj : pyobj) (args : option bytes)
    : pyobj :=
  let i := py_id E obj in
  let opmask := get_opmask E obj in
  match ProxyType_get E obj, args with
  | KindArgs obj_type _, Some a =>
      PyTuple [PyInt i; PyInt opmask; PyInt obj_type; PyStr a]
  | KindArgs obj_type _, None | Kind obj_type, _ =>
      PyTuple [PyInt i; PyInt opmask; PyInt obj_type]
  end.

(** Big-endian bytes of a length, as [struct.pack(">I", n)] writes them. *)
Definition u32_bytes (n : Z) : bytes :=
  [byte_of_Z (n / 2 ^ 24); byte_of_Z (n / 2 ^ 16); byte_of_Z (n / 2 ^ 8);
   byte_of_Z n].

(** One element of a tuple payload: length, then bytes. *)
Definition segment (part : bytes) : bytes :=
  u32_bytes (Z.of_nat (length part)) ++ part.

(** What the codec writes for [v] when it takes it. *)
Definition dumped (E : Externals) (v : pyobj) : bytes :=
  match dumps E v with
  | Return b => b
  | _ => []
  end.

(** The payload of a value made of simple values and tuples. *)
Fixpoint encode (E : Externals) (v : pyobj) : bytes :=
  match v with
  | PyTuple items => tag_t :: concat (map (fun x => segment (encode E x)) items)
  | _ => tag_s :: dumped E v
  end.

(** The payload of the elements of a tuple, one segment after the other. *)
Definition segments (E : Externals) (items : list pyobj) : bytes :=
  concat (map (fun x => segment (encode E x)) items).

(** The codec takes [v] and reads it back. *)
Definition codec_inverts (E : Externals) (v : pyobj) : Prop :=
  exists b, dumps E v = Return b /\ loads E b = Return v.

(** Values built from simple values the codec takes and reads back, nested
    in tuples to any depth, every element of a tuple having a payload whose
    length fits the 32-bit prefix. *)
Fixpoint plain (E : Externals) (v : pyobj) : Prop :=
  match v with
  | PyTuple items =>
      fold_right and True
        (map (fun x => plain E x /\ Z.of_nat (length (encode E x)) < 2 ^ 32)
           items)
  | _ => type_of v ∈ marshallable_types /\ codec_inverts E v
  end.

(** Nesting depth of tuples. *)
Fixpoint depth (v : pyobj) : nat :=
  match v with
  | PyTuple items => S (fold_right Nat.max 0%nat (map depth items))
  | _ => 1%nat
  end.

(** A step that leaves the [waiting] count and the syncrequest flag of
    handler [h] as they are. *)
Definition keeps_waiting {A} (h : nat) (m : M conn A) : Prop :=
  forall c,
    waiting (snd (m c)) = waiting c
    /\ syncrequest (heap (snd (m c)) h) = syncrequest (heap c h).

(** The error is the interpreter's exit request. *)
Definition is_exit (e : exn) : bool :=
  match e with
  | SystemExit _ => true
  | _ => false
  end.

(** The tables [tb'] are [tb] with, at most, more objects recorded in
    [proxied_objects]: the three client tables are the same and every
    entry of [proxied_objects] is still there. *)
Definition extends (tb tb' : tables) : Prop :=
  proxies tb' = proxies tb
  /\ pending_proxies tb' = pending_proxies tb
  /\ proxy_ids tb' = proxy_ids tb
  /\ forall k v, proxied_objects tb !! k = Some v ->
                 proxied_objects tb' !! k = Some v.

(** The first byte of a payload is one of the four tags. *)
Definition tagged_payload (p : bytes) : Prop :=
  exists rest,
    p = tag_s :: rest \/ p = tag_t :: rest
    \/ p = tag_p :: rest \/ p = tag_o :: rest.

(** A step run from [c] ends in a state related to [c] by [R]. *)
Definition keeps_at {A} (R : conn -> conn -> Prop) (m : M conn A) (c : conn)
    : Prop :=
  R c (snd (m c)).

(** Only the handler objects differ. *)
Definition only_heap (c c' : conn) : Prop :=
  c' = upd_heap (fun _ => heap c') c.

(** The input stream is the same. *)
Definition same_istream (c c' : conn) : Prop := istream c' = istream c.

(** The state in which [__waitForResponse] lets the owner of [h] read: the
    connection is open, nobody is receiving, [h] is at the head of
    [response_handlers], and [processing] is not positive or does not
    exceed [waiting]. *)
Definition may_read_response (h : nat) (c : conn) : Prop :=
  open c = true /\ receiving c = false
  /\ (exists hs, response_handlers c = h :: hs)
  /\ (processing c <= 0 \/ processing c <= waiting c).

(** The thread that runs [m] from [c] goes on to read: it is parked inside
    [__recv] because no frame has arrived yet, or it has taken the frame at
    the head of the input stream. *)
Definition reads_frame {A} (m : M conn A) (c : conn) : Prop :=
  fst (m c) = Blocked OnRecv
  \/ exists f rest, istream c = f :: rest /\ istream (snd (m c)) = rest.

(** The states in which [__waitForRequest] lets its caller read. *)
Definition may_read_request (c : conn) : Prop :=
  open c = true /\ requests c = [] /\ receiving c = false
  /\ responses c <= 0
  /\ (processing c <= 0 \/ processing c <= waiting c).

(** The values that have no [startswith] attribute: ints, tuples and the
    other builtin immutables except unicode strings. *)
Definition lacks_startswith (v : pyobj) : bool :=
  match v with
  | PyInt _ | PyTuple _ => true
  | PyImm i_unicode _ => false
  | PyImm _ _ => true
  | PyStr _ | PyObject _ => false
  end.

(** * Properties *)

(** ** Bytes and lengths *)

Lemma Z_of_byte_of_Z (z : Z) : Z_of_byte (byte_of_Z z) = z mod 256.
Proof.
  unfold Z_of_byte, byte_of_Z.
  assert (Hr : 0 <= z mod 256 < 256) by (apply Z.mod_pos_bound; lia).
  destruct (Byte.of_N (Z.to_N (z mod 256))) as [b|] eqn:Hb.
  - apply Byte.to_of_N in Hb. rewrite Hb. rewrite Z2N.id; lia.
  - apply Byte.of_N_None_iff in Hb. lia.
Qed.

Lemma unpack_pack_u32 (n : Z) :
  0 <= n < 2 ^ 32 ->
  exists b,
    pack_u32 n = Return b /\ length b = 4%nat /\ unpack_u32 b = Return n.
Proof.
  intros Hn. unfold pack_u32. rewrite bool_decide_eq_true_2 by exact Hn.
  eexists. split; [reflexivity|]. split; [reflexivity|].
  unfold unpack_u32. rewrite !Z_of_byte_of_Z. f_equal.
  change (2 ^ 24) with 16777216. change (2 ^ 16) with 65536.
  change (2 ^ 8) with 256. change (2 ^ 32) with 4294967296 in Hn.
  pose proof (Z.div_mod n 16777216 ltac:(lia)) as H24.
  pose proof (Z.div_mod n 65536 ltac:(lia)) as H16.
  pose proof (Z.div_mod n 256 ltac:(lia)) as H8.
  pose proof (Z.div_mod (n / 256) 256 ltac:(lia)) as H8'.
  pose proof (Z.div_mod (n / 65536) 256 ltac:(lia)) as H16'.
  pose proof (Z.mod_pos_bound n 256 ltac:(lia)).
  pose proof (Z.mod_pos_bound (n / 256) 256 ltac:(lia)).
  pose proof (Z.mod_pos_bound (n / 65536) 256 ltac:(lia)).
  assert (E1 : n / 256 / 256 = n / 65536)
    by (rewrite Z.div_div by lia; reflexivity).
  assert (E2 : n / 65536 / 256 = n / 16777216)
    by (rewrite Z.div_div by lia; reflexivity).
  assert (E3 : (n / 16777216) mod 256 = n / 16777216).
  { apply Z.mod_small. split; [apply Z.div_pos; lia|].
    apply Z.div_lt_upper_bound; lia. }
  rewrite E3. rewrite E1 in H8'. rewrite E2 in H16'. lia.
Qed.

Lemma startswith_nil (s : bytes) : startswith s [] = true.
Proof. by destruct s. Qed.

Lemma startswith_cons (b t : byte) (rest : bytes) :
  startswith (b :: rest) [t] = bool_decide (b = t).
Proof.
  cbn [startswith]. rewrite startswith_nil, andb_true_r.
  destruct (Byte.eqb b t) eqn:Hb.
  - apply Byte.byte_dec_bl in Hb. subst. by rewrite bool_decide_eq_true_2.
  - apply Byte.eqb_false in Hb. by rewrite bool_decide_eq_false_2.
Qed.

(** ** The marshaler *)

Lemma unmarshal_first_byte (E : Externals) (fuel : nat) (payload : bytes)
    (tb : tables) :
  unmarshal E (S fuel) payload tb =
    match payload with
    | [] => (Raise ValueError, tb)
    | b :: rest =>
        if bool_decide (b = tag_s) then (loads E rest, tb)
        else if bool_decide (b = tag_t) then
          unmarshal_parts (unmarshal E fuel) (length payload) rest [] tb
        else if bool_decide (b = tag_p) then
          unmarshal_proxy E (unmarshal E fuel) rest tb
        else if bool_decide (b = tag_o) then unmarshal_origin E rest tb
        else (Raise ValueError, tb)
    end.
Proof.
  destruct payload as [|b rest]; [reflexivity|].
  cbn [unmarshal]. unfold unmarshal_body.
  rewrite !startswith_cons.
  repeat case_bool_decide; reflexivity.
Qed.

(** C9. [__unmarshal] looks at the first byte of the payload only: [s],
    [t], [p] and [o] select the decoder of a simple value, of a tuple, of a
    proxy and of an origin reference; any other first byte, and the empty
    payload, raise [ValueError] ("Invalid payload prefix") and leave the
    tables as they are. *)
Theorem unmarshal_tag_dispatch (E : Externals) (fuel : nat) (payload : bytes)
    (tb : tables) :
  unmarshal E (S fuel) payload tb =
    match payload with
    | [] => (Raise ValueError, tb)
    | b :: rest =>
        if bool_decide (b = tag_s) then (loads E rest, tb)
        else if bool_decide (b = tag_t) then
          unmarshal_parts (unmarshal E fuel) (length payload) rest [] tb
        else if bool_decide (b = tag_p) then
          unmarshal_proxy E (unmarshal E fuel) rest tb
        else if bool_decide (b = tag_o) then unmarshal_origin E rest tb
        else (Raise ValueError, tb)
    end.
Proof. apply unmarshal_first_byte. Qed.

Lemma tuple_not_marshallable : t_tuple ∉ marshallable_types.
Proof.
  intros H. apply (bool_decide_eq_true_2 _) in H. vm_compute in H.
  discriminate H.
Qed.


Lemma slice_marshallable : t_slice ∈ marshallable_types.
Proof. apply (bool_decide_eq_true_1 _). reflexivity. Qed.

(** The result of marshaling by identity, when there is one, starts with
    [p] or with [o]. *)
Lemma tagged_return (t : byte) (o : outcome bytes) (b : bytes) :
  tagged t o = Return b -> exists rest, b = t :: rest.
Proof. destruct o; simpl; intros H; inversion H; eauto. Qed.

Lemma marshal_by_identity_tag (E : Externals) (rec : pyobj -> M tables bytes)
    (obj : pyobj) (tb tb' : tables) (b : bytes) :
  marshal_by_identity E rec obj tb = (Return b, tb') ->
  exists rest, b = tag_p :: rest \/ b = tag_o :: rest.
Proof.
  unfold marshal_by_identity, bind, get, lift, modify, ret.
  destruct (bool_decide (is_Some (proxied_objects tb !! py_id E obj))).
  - intros Hm. inversion Hm as [[H1 H2]].
    apply tagged_return in H1 as [rest ->]. eauto.
  - destruct (proxy_ids tb !! py_id E obj).
    + intros Hm. inversion Hm as [[H1 H2]].
      apply tagged_return in H1 as [rest ->]. eauto.
    + destruct (ProxyType_get E obj) as [k|k args].
      * intros Hm. inversion Hm as [[H1 H2]].
        apply tagged_return in H1 as [rest ->]. eauto.
      * destruct (rec args tb) as [[a| | |] tb1]; try discriminate.
        intros Hm. inversion Hm as [[H1 H2]].
        apply tagged_return in H1 as [rest ->]. eauto.
Qed.



Lemma marshal_reaches_identity (E : Externals) (fuel : nat) (obj : pyobj)
    (tb_in tb : tables) :
  reaches_identity E fuel obj tb_in tb ->
  marshal E (S fuel) obj tb_in = marshal_by_identity E (marshal E fuel) obj tb.
Proof.
  intros [Hs Ht]. cbn [marshal]. unfold marshal_body. rewrite Hs.
  destruct obj; try (subst tb; reflexivity).
  unfold try_except. rewrite Ht. reflexivity.
Qed.

(** C5. A value that is not written as a simple value or as a tuple is
    marshaled by its identity [i]: when [i] is in [proxied_objects] the
    payload is [p] followed by the encoding of [i] alone; otherwise, when
    [i] is in [proxy_ids], it is [o] followed by the encoding of the remote
    identity stored there; otherwise it is [p] followed by the encoding of
    the introduction tuple (identity, opmask, kind and, when the classifier
    gives constructor arguments, their marshaled form), and the object is
    in [proxied_objects] under [i] when the call returns.  In the first two
    cases the tables are left as they are. *)
Theorem marshal_identity_cases (E : Externals) (fuel : nat) (obj : pyobj)
    (tb_in tb : tables) :
  reaches_identity E fuel obj tb_in tb ->
  let i := py_id E obj in
  (is_Some (proxied_objects tb !! i) ->
     marshal E (S fuel) obj tb_in = (tagged tag_p (dumps E (PyInt i)), tb))
  /\ (proxied_objects tb !! i = None ->
      forall remote, proxy_ids tb !! i = Some remote ->
      marshal E (S fuel) obj tb_in = (tagged tag_o (dumps E remote), tb))
  /\ (proxied_objects tb !! i = None -> proxy_ids tb !! i = None ->
      forall (args : option bytes) (tb1 : tables),
        match ProxyType_get E obj with
        | Kind _ => args = None /\ tb1 = tb
        | KindArgs _ a =>
            exists b, marshal E fuel a tb = (Return b, tb1) /\ args = Some b
        end ->
        exists tb',
          marshal E (S fuel) obj tb_in
          = (tagged tag_p (dumps E (introduction E obj args)), tb')
          /\ proxied_objects tb' !! i = Some obj
          /\ tb' = set_proxied_objects (fun d => <[i := obj]> d) tb1).
Proof.
  intros Hreach i. rewrite (marshal_reaches_identity _ _ _ _ _ Hreach).
  unfold marshal_by_identity, bind, get, lift, modify, ret. fold i.
  split; [|split].
  - intros Hin. rewrite bool_decide_eq_true_2 by exact Hin. reflexivity.
  - intros Hnone remote Hremote.
    rewrite bool_decide_eq_false_2.
    + rewrite Hremote. reflexivity.
    + rewrite Hnone. intros [x Hx]. discriminate Hx.
  - intros Hnone Hids args tb1 Hargs.
    rewrite bool_decide_eq_false_2
      by (rewrite Hnone; intros [x Hx]; discriminate Hx).
    rewrite Hids. unfold introduction. fold i.
    destruct (ProxyType_get E obj) as [k|k a].
    + destruct Hargs as [-> ->]. eexists. split; [reflexivity|].
      split; [|reflexivity]. cbn. apply lookup_insert_eq.
    + destruct Hargs as [b [Hb ->]]. rewrite Hb.
      eexists. split; [reflexivity|].
      split; [|reflexivity]. cbn. apply lookup_insert_eq.
Qed.

Lemma marshal_identity_cases_witness :
  reaches_identity Sample.externals 0 (PyObject 7) (tabs init) (tabs init)
  /\ exists tb',
       marshal Sample.externals 1 (PyObject 7) (tabs init)
       = (Return (tag_p :: "("%byte :: [x02; "i"; x07; x02; "i"; x00;
                                        x02; "i"; x00]%byte), tb')
       /\ proxied_objects tb' !! 7 = Some (PyObject 7).
Proof.
  assert (Hr : reaches_identity Sample.externals 0 (PyObject 7)
                 (tabs init) (tabs init)).
  { split; reflexivity. }
  split; [exact Hr|].
  destruct (marshal_identity_cases Sample.externals 0 (PyObject 7)
              (tabs init) (tabs init) Hr) as (_ & _ & H3).
  destruct (H3 eq_refl eq_refl None (tabs init) (conj eq_refl eq_refl))
    as (tb' & Hm & Hl & _).
  exists tb'. split; [exact Hm | exact Hl].
Defined.

(** ** Round trip *)

Lemma pack_u32_bytes (n : Z) :
  0 <= n < 2 ^ 32 -> pack_u32 n = Return (u32_bytes n).
Proof.
  intros Hn. unfold pack_u32. by rewrite bool_decide_eq_true_2.
Qed.

Lemma unpack_u32_bytes (n : Z) :
  0 <= n < 2 ^ 32 -> unpack_u32 (u32_bytes n) = Return n.
Proof.
  intros Hn. destruct (unpack_pack_u32 n Hn) as (b & Hp & _ & Hu).
  rewrite (pack_u32_bytes n Hn) in Hp. inversion Hp. subst b. exact Hu.
Qed.

Section RoundTrip.
Variable E : Externals.

Lemma marshal_items_plain (rec : pyobj -> M tables bytes) (tb : tables)
    (items : list pyobj) :
  Forall (fun x => rec x tb = (Return (encode E x), tb)
                   /\ Z.of_nat (length (encode E x)) < 2 ^ 32) items ->
  forall acc,
    marshal_items rec items acc tb = (Return (acc ++ segments E items), tb).
Proof.
  induction 1 as [|x items [Hx Hlen] _ IH]; intros acc.
  - cbn. by rewrite app_nil_r.
  - cbn [marshal_items]. unfold bind at 1. rewrite Hx.
    unfold bind at 1, lift. rewrite pack_u32_bytes by lia.
    rewrite IH. unfold segments. cbn [map concat]. unfold segment.
    by rewrite <- !app_assoc.
Qed.

Lemma unmarshal_parts_plain (rec : bytes -> M tables pyobj)
    (items : list pyobj) :
  Forall (fun x => (forall tb, rec (encode E x) tb = (Return x, tb))
                   /\ Z.of_nat (length (encode E x)) < 2 ^ 32) items ->
  forall rounds parts tb,
    (length items <= rounds)%nat ->
    unmarshal_parts rec rounds (segments E items) parts tb
    = (Return (PyTuple (parts ++ items)), tb).
Proof.
  induction 1 as [|x items [Hx Hlen] _ IH]; intros rounds parts tb Hr.
  - cbn. destruct rounds; cbn; by rewrite app_nil_r.
  - destruct rounds as [|rounds]; [cbn in Hr; lia|].
    unfold segments. cbn [map concat]. fold (segments E items).
    unfold segment at 1, u32_bytes at 1.
    cbn [app unmarshal_parts].
    unfold size_size. cbn [take drop]. rewrite take_0, !drop_0.
    fold (u32_bytes (Z.of_nat (length (encode E x)))).
    unfold bind at 1, lift. rewrite unpack_u32_bytes by lia.
    rewrite Nat2Z.id, take_app_length, drop_app_length.
    unfold bind at 1. rewrite Hx.
    rewrite IH by (cbn in Hr; lia).
    by rewrite <- app_assoc.
Qed.

Lemma plain_tuple_Forall (items : list pyobj) :
  plain E (PyTuple items) ->
  Forall (fun x => plain E x /\ Z.of_nat (length (encode E x)) < 2 ^ 32)
    items.
Proof.
  cbn [plain]. induction items as [|x items IH]; cbn.
  - constructor.
  - intros [Hx Hrest]. constructor; [exact Hx | exact (IH Hrest)].
Qed.

Lemma depth_tuple_Forall (items : list pyobj) (n : nat) :
  (depth (PyTuple items) <= S n)%nat ->
  Forall (fun x => (depth x <= n)%nat) items.
Proof.
  cbn [depth]. intros H. apply le_S_n in H. revert H.
  induction items as [|x items IH]; cbn; intros H.
  - constructor.
  - constructor; [lia | apply IH; lia].
Qed.

Lemma segments_length (items : list pyobj) :
  (length items <= length (segments E items))%nat.
Proof.
  induction items as [|x items IH]; [cbn; lia|].
  change (segments E (x :: items))
    with (segment (encode E x) ++ segments E items).
  unfold segment, u32_bytes. rewrite !length_app. cbn [length]. lia.
Qed.

Lemma round_trip_plain (fuel : nat) :
  forall v, plain E v -> (depth v <= fuel)%nat ->
    (forall tb, marshal E fuel v tb = (Return (encode E v), tb))
    /\ (forall tb, unmarshal E fuel (encode E v) tb = (Return v, tb)).
Proof.
  induction fuel as [|n IH]; intros v Hplain Hdepth.
  { destruct v; cbn in Hdepth; lia. }
  assert (Hscalar :
    (forall items, v <> PyTuple items) ->
    type_of v ∈ marshallable_types -> codec_inverts E v ->
    encode E v = tag_s :: dumped E v ->
    (forall tb, marshal E (S n) v tb = (Return (encode E v), tb))
    /\ (forall tb, unmarshal E (S n) (encode E v) tb = (Return v, tb))).
  { intros Hnt Hty [b [Hd Hl]] Henc. rewrite Henc.
    unfold dumped. rewrite Hd. split; intros tb.
    - cbn [marshal]. unfold marshal_body, marshal_simple.
      rewrite bool_decide_eq_true_2 by exact Hty. rewrite Hd. reflexivity.
    - rewrite unmarshal_first_byte.
      rewrite bool_decide_eq_true_2 by reflexivity. by rewrite Hl. }
  destruct v as [z|s|ty c|items|ident];
    try (destruct Hplain as [Hty Hinv];
         apply Hscalar;
           [intros ? ?; discriminate|exact Hty|exact Hinv|reflexivity]).
  clear Hscalar.
  pose proof (plain_tuple_Forall items Hplain) as Hall.
  pose proof (depth_tuple_Forall items n Hdepth) as Hdep.
  assert (Hboth : Forall (fun x =>
            ((forall tb, marshal E n x tb = (Return (encode E x), tb))
             /\ (forall tb, unmarshal E n (encode E x) tb = (Return x, tb)))
            /\ Z.of_nat (length (encode E x)) < 2 ^ 32) items).
  { rewrite Forall_forall in Hall, Hdep |- *. intros x Hx.
    destruct (Hall x Hx) as [Hp Hl]. split; [|exact Hl].
    apply IH; [exact Hp | exact (Hdep x Hx)]. }
  split; intros tb.
  - cbn [marshal]. unfold marshal_body, marshal_simple.
    rewrite bool_decide_eq_false_2 by exact tuple_not_marshallable.
    unfold try_except.
    rewrite (marshal_items_plain _ tb items).
    + reflexivity.
    + eapply Forall_impl; [exact Hboth|].
      intros x [[Hm _] Hl]. split; [apply Hm | exact Hl].
  - rewrite unmarshal_first_byte. cbn [encode].
    rewrite bool_decide_eq_false_2 by discriminate.
    rewrite bool_decide_eq_true_2 by reflexivity.
    fold (segments E items).
    rewrite (unmarshal_parts_plain _ items).
    + reflexivity.
    + eapply Forall_impl; [exact Hboth|].
      intros x [[_ Hu] Hl]. split; [exact Hu | exact Hl].
    + cbn [length]. pose proof (segments_length items). lia.
Qed.
End RoundTrip.

(** C4 (as stated) fails: a slice has a type of [marshallable_types], the
    codec rejects it, and [__marshal] sends it as a new proxy; the peer
    decodes a proxy object, not the slice. *)
Lemma round_trip_fails_for_rejected_scalar :
  type_of Sample.a_slice ∈ marshallable_types
  /\ exists p tb1 tb2,
       marshal Sample.externals 1 Sample.a_slice (tabs init) = (Return p, tb1)
       /\ unmarshal Sample.externals 1 p (tabs init)
          = (Return (PyObject 5112), tb2)
       /\ PyObject 5112 <> Sample.a_slice.
Proof.
  split; [exact slice_marshallable|].
  eexists _, _, _. split; [vm_compute; reflexivity|].
  split; [vm_compute; reflexivity|]. discriminate.
Qed.

(** C4 (amended). For every value built from simple values that the codec
    takes and reads back, nested in tuples to any finite depth (the empty
    tuple included) with every element's payload shorter than 2^32 bytes,
    [__marshal] returns a payload, leaving the tables alone, and
    [__unmarshal] of that payload returns the value. *)
Theorem marshal_unmarshal_round_trip (E : Externals) (v : pyobj) (fuel : nat)
    (tb tb' : tables) :
  plain E v -> (depth v <= fuel)%nat ->
  exists p,
    marshal E fuel v tb = (Return p, tb)
    /\ unmarshal E fuel p tb' = (Return v, tb').
Proof.
  intros Hp Hd. exists (encode E v).
  destruct (round_trip_plain E fuel v Hp Hd) as [Hm Hu].
  split; [apply Hm | apply Hu].
Qed.

Lemma marshal_unmarshal_round_trip_witness :
  let v := PyTuple [PyInt 5; PyTuple []; PyStr ["a"; "b"]%byte] in
  plain Sample.externals v /\ (depth v <= 2)%nat
  /\ exists p,
       marshal Sample.externals 2 v (tabs init) = (Return p, tabs init)
       /\ unmarshal Sample.externals 2 p (tabs init) = (Return v, tabs init).
Proof.
  intros v.
  assert (Hp : plain Sample.externals v).
  { cbn [plain map fold_right v encode concat].
    repeat split; try (apply (bool_decide_eq_true_1 _); reflexivity).
    - eexists. split; reflexivity.
    - eexists. split; reflexivity. }
  assert (Hd : (depth v <= 2)%nat) by (cbn; lia).
  split; [exact Hp|]. split; [exact Hd|].
  exact (marshal_unmarshal_round_trip Sample.externals v 2
           (tabs init) (tabs init) Hp Hd).
Defined.

(** ** The response-handler registry *)

Lemma first_of_thread_shift (hp : nat -> ResponseHandler) (tid : Z)
    (hs : list nat) (i : nat) :
  first_of_thread hp tid hs i = (i + first_of_thread hp tid hs 0)%nat.
Proof.
  revert i. induction hs as [|h hs IH]; intros i; cbn.
  - lia.
  - case_bool_decide; [lia|]. rewrite (IH (S i)), (IH 1%nat). lia.
Qed.

(** The scan stops at the first handler of the thread. *)
Lemma first_of_thread_spec (hp : nat -> ResponseHandler) (tid : Z)
    (hs : list nat) :
  let k := first_of_thread hp tid hs 0 in
  Forall (fun x => thread (hp x) <> tid) (take k hs)
  /\ match drop k hs with
     | [] => True
     | x :: _ => thread (hp x) = tid
     end.
Proof.
  induction hs as [|h hs IH]; cbn.
  - split; [constructor | exact I].
  - case_bool_decide as Hh.
    + cbn. split; [constructor | exact Hh].
    + rewrite first_of_thread_shift. cbn.
      destruct IH as [IH1 IH2]. split; [constructor; assumption | exact IH2].
Qed.

Lemma rewrap_frame (E : Externals) (fuel : nat) (tid : Z)
    (mt : MessageType.t) (args : pyobj) (c c1 : conn)
    (r : outcome (MessageType.t * pyobj)) :
  rewrap E fuel tid mt args c = (r, c1) ->
  exists tb, c1 = upd_tabs (fun _ => tb) c.
Proof.
  unfold rewrap, bind, get, ret, on_tables.
  case_bool_decide.
  - destruct (marshal E fuel args (tabs c)) as [[a|e|b|] tb];
      intros Hr; inversion Hr; eauto.
  - intros Hr. inversion Hr. subst. exists (tabs c1). by destruct c1.
Qed.

Lemma send_message_frame (E : Externals) (fuel : nat) (mt : MessageType.t)
    (args : pyobj) (c : conn) :
  exists tb o,
    snd (send_message E fuel mt args c)
    = upd_ostream (fun _ => o) (upd_tabs (fun _ => tb) c).
Proof.
  unfold send_message, bind, on_tables, modify.
  destruct (marshal E fuel args (tabs c)) as [[a|e|b|] tb]; cbn;
    try (exists tb, (ostream c); reflexivity).
  eexists tb, _. reflexivity.
Qed.

(** What [register_handler] leaves behind. *)
Lemma register_handler_spec (tid : Z) (mt : MessageType.t) (c : conn) :
  exists c2,
    register_handler tid mt c = (Return (next_handler c), c2)
    /\ (forall x, x <> next_handler c -> heap c2 x = heap c x)
    /\ thread (heap c2 (next_handler c)) = tid
    /\ syncrequest (heap c2 (next_handler c))
       = bool_decide (mt = MessageType.syncrequest)
    /\ response_handlers c2 =
         (if bool_decide (mt = MessageType.syncrequest) then
            list_insert_at
              (first_of_thread (heap c2) tid (response_handlers c) 0)
              (next_handler c) (response_handlers c)
          else response_handlers c ++ [next_handler c])
    /\ open c2 = open c /\ tabs c2 = tabs c /\ ostream c2 = ostream c.
Proof.
  unfold register_handler, ResponseHandler_new, set_syncrequest, upd_handler,
    notify, bind, get, modify, ret.
  case_bool_decide as Hmt; cbn.
  - case_bool_decide; cbn; eexists; (split; [reflexivity|]); cbn;
      repeat split; try reflexivity;
      try (intros x Hx; rewrite !decide_False by exact Hx; reflexivity);
      rewrite ?decide_True by reflexivity; reflexivity.
  - eexists; (split; [reflexivity|]); cbn;
      repeat split; try reflexivity;
      try (intros x Hx; rewrite !decide_False by exact Hx; reflexivity);
      rewrite ?decide_True by reflexivity; reflexivity.
Qed.

(** C1. In [send_request], once it is settled that the message goes out
    with type [mt'], the new handler (thread: the caller, syncrequest flag:
    whether [mt'] is syncrequest) enters [response_handlers] as follows.
    For a syncrequest it is put immediately before the first handler of the
    calling thread, the handlers before it all belonging to other threads,
    and at the tail when the thread has no handler in the list; for any
    other type it is appended at the tail. *)
Theorem send_request_registers_handler (E : Externals) (fuel : nat) (tid : Z)
    (mt : MessageType.t) (args : pyobj) (c c1 : conn)
    (mt' : MessageType.t) (args' : pyobj) :
  open c = true ->
  Forall (fun x => (x < next_handler c)%nat) (response_handlers c) ->
  rewrap E fuel tid mt args c = (Return (mt', args'), c1) ->
  let c' := snd (send_request_begin E fuel tid mt args c) in
  let handler := next_handler c in
  (mt' = MessageType.syncrequest ->
     exists l1 l2,
       response_handlers c = l1 ++ l2
       /\ response_handlers c' = l1 ++ handler :: l2
       /\ Forall (fun x => thread (heap c x) <> tid) l1
       /\ match l2 with
          | [] => True
          | x :: _ => thread (heap c x) = tid
          end)
  /\ (mt' <> MessageType.syncrequest ->
      response_handlers c' = response_handlers c ++ [handler])
  /\ thread (heap c' handler) = tid
  /\ syncrequest (heap c' handler)
     = bool_decide (mt' = MessageType.syncrequest).
Proof.
  intros Hopen Hwf Hrewrap c' handler.
  destruct (rewrap_frame _ _ _ _ _ _ _ _ Hrewrap) as [tb Hc1].
  destruct (register_handler_spec tid mt' c1)
    as (c2 & Hreg & Hheap & Hthread & Hsync & Hlist & _).
  assert (Hn1 : next_handler c1 = handler) by (subst c1; reflexivity).
  assert (Hl1 : response_handlers c1 = response_handlers c)
    by (subst c1; reflexivity).
  assert (Hh1 : heap c1 = heap c) by (subst c1; reflexivity).
  rewrite Hn1 in *. rewrite Hl1 in Hlist.
  destruct (send_message_frame E fuel mt' args' c2) as (tb3 & o3 & Hsend).
  assert (Hc' : c' = upd_ostream (fun _ => o3) (upd_tabs (fun _ => tb3) c2)).
  { subst c'. unfold send_request_begin, bind at 1, get.
    rewrite Hopen. cbn [negb]. unfold bind at 1. rewrite Hrewrap.
    unfold bind at 1. cbn [fst snd]. rewrite Hreg.
    rewrite <- Hsend. unfold bind, ret.
    destruct (send_message E fuel mt' args' c2) as [[u|e|b|] c3]; reflexivity. }
  assert (Hl' : response_handlers c' = response_handlers c2)
    by (rewrite Hc'; reflexivity).
  assert (Hh' : heap c' = heap c2) by (rewrite Hc'; reflexivity).
  rewrite Hl', Hh', Hlist.
  assert (Hold : forall x, x ∈ response_handlers c ->
                   heap c2 x = heap c x).
  { intros x Hx. rewrite Hheap; [by rewrite Hh1|].
    rewrite Forall_forall in Hwf. specialize (Hwf x Hx). unfold handler. lia. }
  split; [|split; [|split]].
  - intros Hs. rewrite bool_decide_eq_true_2 by exact Hs.
    set (k := first_of_thread (heap c2) tid (response_handlers c) 0).
    exists (take k (response_handlers c)), (drop k (response_handlers c)).
    destruct (first_of_thread_spec (heap c2) tid (response_handlers c))
      as [Hbefore Hat]. fold k in Hbefore, Hat.
    split; [by rewrite take_drop|]. split; [reflexivity|]. split.
    + rewrite Forall_forall in Hbefore |- *. intros x Hx.
      rewrite <- Hold; [exact (Hbefore x Hx)|].
      rewrite <- (take_drop k (response_handlers c)).
      apply elem_of_app. by left.
    + destruct (drop k (response_handlers c)) as [|x l2] eqn:Hdrop;
        [exact I|].
      rewrite <- Hold; [exact Hat|].
      rewrite <- (take_drop k (response_handlers c)).
      apply elem_of_app. right. rewrite Hdrop. by left.
  - intros Hs. by rewrite bool_decide_eq_false_2.
  - exact Hthread.
  - exact Hsync.
Qed.

Lemma send_request_registers_handler_witness :
  open Sample.nested_state = true
  /\ response_handlers Sample.nested_state = [0; 1]%nat
  /\ exists l1 l2,
       response_handlers Sample.nested_state = l1 ++ l2
       /\ response_handlers
            (snd (send_request_begin Sample.externals 2 1
                    (MessageType.request 0) PyNone Sample.nested_state))
          = l1 ++ 2%nat :: l2
       /\ Forall (fun x => thread (heap Sample.nested_state x) <> 1) l1
       /\ match l2 with
          | [] => True
          | x :: _ => thread (heap Sample.nested_state x) = 1
          end.
Proof.
  split; [reflexivity|]. split; [reflexivity|].
  refine (proj1 (send_request_registers_handler Sample.externals 2 1
            (MessageType.request 0) PyNone Sample.nested_state
            (snd (rewrap Sample.externals 2 1 (MessageType.request 0) PyNone
                    Sample.nested_state))
            MessageType.syncrequest
            (PyTuple [PyInt 3; PyStr [tag_s; "N"%byte]])
            eq_refl _ _) eq_refl).
  - repeat constructor.
  - vm_compute. reflexivity.
Defined.

(** ** Closed connection *)

(** C8. On a connection whose [open] flag is false [send_request] raises
    the "Connection is closed" exception at once: the state is untouched,
    so no handler is registered and no frame is written. *)
Theorem send_request_closed (E : Externals)
    (request_handler : Z -> option (pyobj -> M conn pyobj))
    (rounds fuel : nat) (tid : Z) (mt : MessageType.t) (args : pyobj)
    (c : conn) :
  open c = false ->
  send_request E request_handler rounds fuel tid mt args c
  = (Raise ConnectionClosed, c)
  /\ response_handlers
       (snd (send_request E request_handler rounds fuel tid mt args c))
     = response_handlers c
  /\ ostream (snd (send_request E request_handler rounds fuel tid mt args c))
     = ostream c.
Proof.
  intros Hclosed.
  assert (H : send_request E request_handler rounds fuel tid mt args c
              = (Raise ConnectionClosed, c)).
  { unfold send_request, send_request_begin, bind, get, raise.
    rewrite Hclosed. reflexivity. }
  rewrite H. repeat split.
Qed.

Lemma send_request_closed_witness :
  open (upd_open (fun _ => false) Sample.two_outstanding) = false
  /\ send_request Sample.externals Sample.request_handler 1 2 1
       (MessageType.request 0) PyNone
       (upd_open (fun _ => false) Sample.two_outstanding)
     = (Raise ConnectionClosed,
        upd_open (fun _ => false) Sample.two_outstanding).
Proof.
  split; [reflexivity|].
  exact (proj1 (send_request_closed Sample.externals Sample.request_handler
                  1 2 1 (MessageType.request 0) PyNone
                  (upd_open (fun _ => false) Sample.two_outstanding)
                  eq_refl)).
Defined.

Example after_bad_response_counts :
  processing Sample.after_bad_response = -1
  /\ waiting Sample.after_bad_response = 0
  /\ response_handlers Sample.after_bad_response = []
  /\ open Sample.after_bad_response = true
  /\ length (ostream Sample.after_bad_response) = 2%nat.
Proof. vm_compute. repeat split. Qed.

(** ** Read arbitration in [__waitForRequest] *)

Lemma waitForRequest_guard_false (c : conn) :
  waitForRequest_guard c = false <->
  open c = false \/ requests c <> []
  \/ (receiving c = false /\ responses c <= 0
      /\ (processing c <= 0 \/ processing c <= waiting c)).
Proof.
  unfold waitForRequest_guard.
  destruct (open c), (receiving c), (requests c) as [|m q]; cbn;
    repeat case_bool_decide; cbn;
    intuition (try lia; try congruence; try discriminate).
Qed.

(** C3 (as stated) fails: after a top-level request was answered by a
    response whose payload could not be decoded, [__handle] has released a
    processing slot that was never taken; a thread entering
    [__waitForRequest] then goes on to read although [processing] is
    neither zero nor equal to [waiting]: with nothing on the stream it is
    parked inside [__recv], and with a request on the stream it takes it. *)
Lemma read_with_negative_processing :
  let c := Sample.after_bad_response in
  let c' := upd_istream (fun _ => [Sample.failing_request]) c in
  processing c = -1 /\ waiting c = 0
  /\ ~ (processing c = 0 \/ processing c = waiting c)
  /\ fst (waitForRequest c) = Blocked OnRecv
  /\ fst (waitForRequest c') = Return (Some Sample.failing_request)
  /\ istream (snd (waitForRequest c')) = [].
Proof.
  cbv zeta. split; [vm_compute; reflexivity|].
  split; [vm_compute; reflexivity|].
  split; [intros [H|H]; vm_compute in H; discriminate H|].
  split; [vm_compute; reflexivity|].
  split; vm_compute; reflexivity.
Qed.

Lemma waitForRequest_step_read (c : conn) :
  waitForRequest_step c = StepRead <-> may_read_request c.
Proof.
  unfold waitForRequest_step, may_read_request.
  destruct (waitForRequest_guard c) eqn:Hg.
  - split; [discriminate|]. intros (Ho & Hq & Hr & Hres & Hp).
    assert (Hf : waitForRequest_guard c = false).
    { apply waitForRequest_guard_false. right. right. auto. }
    congruence.
  - apply waitForRequest_guard_false in Hg.
    destruct (open c) eqn:Ho; cbn.
    + destruct (requests c) as [|m q] eqn:Hq; cbn.
      * rewrite bool_decide_eq_false_2 by lia.
        split; [intros _|reflexivity].
        destruct Hg as [Hg|[Hg|Hg]]; [discriminate|congruence|tauto].
      * rewrite bool_decide_eq_true_2 by lia.
        split; [discriminate|]. intros (_ & Hx & _). discriminate Hx.
    + split; [discriminate|]. intros (Hx & _). discriminate Hx.
Qed.

Lemma waitForRequest_run (c : conn) :
  waitForRequest c
  = match waitForRequest_step c with
    | StepWait => (Blocked OnCondition, c)
    | StepClosed => (Return None, c)
    | StepDequeue =>
        match requests c with
        | m :: rest =>
            (wake_first_handler ;;; ret (Some m))
              (upd_requests (fun _ => rest)
                 (upd_processing (fun p => p + 1) c))
        | [] => (Raise IndexError, upd_processing (fun p => p + 1) c)
        end
    | StepRead =>
        match istream c with
        | f :: rest =>
            finally (waitForRequest_classify f)
              (modify (upd_receiving (fun _ => false)))
              (upd_istream (fun _ => rest) (upd_receiving (fun _ => true) c))
        | [] => (Blocked OnRecv, upd_receiving (fun _ => true) c)
        end
    end.
Proof.
  unfold waitForRequest, bind at 1, get.
  destruct (waitForRequest_step c); try reflexivity.
  - unfold bind at 1, modify. destruct (requests c); reflexivity.
  - unfold bind at 1, modify at 1. unfold finally, recv.
    cbn [istream upd_receiving]. destruct (istream c); reflexivity.
Qed.

Lemma waitForRequest_classify_read (f : Message) (c : conn) :
  let r := finally (waitForRequest_classify f)
             (modify (upd_receiving (fun _ => false))) c in
  istream (snd r) = istream c /\ receiving (snd r) = false.
Proof.
  unfold finally, waitForRequest_classify, wake_first_handler, first_handler,
    handler_set, upd_handler, bind, get, modify, ret, raise.
  destruct (in_response_types (mtype f));
    [|destruct (bool_decide (mtype f = MessageType.syncrequest));
      [|destruct (open c)]];
    cbn; destruct (response_handlers c); cbn; split; reflexivity.
Qed.

Lemma not_own_tail {A} (x : A) (l : list A) : l <> x :: l.
Proof.
  intros H. apply (f_equal length) in H. cbn in H. lia.
Qed.

(** C3 (amended). A thread in [__waitForRequest] goes on to read a frame,
    that is, takes the frame at the head of the input stream or is parked
    inside [__recv] when none has arrived, exactly in the states where the
    connection is open, the queue of requests is empty, no thread is
    receiving, [responses] is not positive and [processing] is not positive
    or does not exceed [waiting]; when it has taken a frame, [receiving] is
    clear again.  In every other state with the connection open it waits on
    the scheduling condition or takes the request at the head of the queue,
    and the input stream is not touched; on a closed connection it returns
    nothing and changes nothing. *)
Theorem waitForRequest_read_condition (c : conn) :
  (reads_frame waitForRequest c <-> may_read_request c)
  /\ (may_read_request c ->
      match istream c with
      | f :: rest =>
          istream (snd (waitForRequest c)) = rest
          /\ receiving (snd (waitForRequest c)) = false
      | [] =>
          waitForRequest c
          = (Blocked OnRecv, upd_receiving (fun _ => true) c)
      end)
  /\ (open c = true -> ~ may_read_request c ->
      istream (snd (waitForRequest c)) = istream c
      /\ (waitForRequest c = (Blocked OnCondition, c)
          \/ exists m rest,
               requests c = m :: rest
               /\ fst (waitForRequest c) = Return (Some m)
               /\ requests (snd (waitForRequest c)) = rest))
  /\ (open c = false -> waitForRequest c = (Return None, c)).
Proof.
  pose proof (waitForRequest_step_read c) as Hstep.
  assert (Hread : may_read_request c ->
            match istream c with
            | f :: rest =>
                istream (snd (waitForRequest c)) = rest
                /\ receiving (snd (waitForRequest c)) = false
            | [] =>
                waitForRequest c
                = (Blocked OnRecv, upd_receiving (fun _ => true) c)
            end).
  { intros Hmay. apply Hstep in Hmay. rewrite waitForRequest_run, Hmay.
    destruct (istream c) as [|f rest]; [reflexivity|].
    exact (waitForRequest_classify_read f
             (upd_istream (fun _ => rest)
                (upd_receiving (fun _ => true) c))). }
  assert (Hother : waitForRequest_step c <> StepRead ->
            istream (snd (waitForRequest c)) = istream c
            /\ fst (waitForRequest c) <> Blocked OnRecv
            /\ (open c = false -> waitForRequest c = (Return None, c))
            /\ (open c = true ->
                waitForRequest c = (Blocked OnCondition, c)
                \/ exists m rest,
                     requests c = m :: rest
                     /\ fst (waitForRequest c) = Return (Some m)
                     /\ requests (snd (waitForRequest c)) = rest)).
  { intros Hnot. rewrite waitForRequest_run.
    destruct (waitForRequest_step c) eqn:Hs; try congruence.
    - split; [reflexivity|]. split; [discriminate|].
      split; [|left; reflexivity].
      intros Ho. exfalso. unfold waitForRequest_step in Hs.
      unfold waitForRequest_guard in Hs. rewrite Ho in Hs. discriminate Hs.
    - split; [reflexivity|]. split; [discriminate|].
      split; [reflexivity|].
      intros Ho. exfalso. unfold waitForRequest_step in Hs. rewrite Ho in Hs.
      cbn [negb] in Hs.
      destruct (waitForRequest_guard c); [discriminate|].
      destruct (bool_decide (0 < length (requests c))%nat); discriminate.
    - assert (Ho : open c = true).
      { unfold waitForRequest_step in Hs.
        destruct (waitForRequest_guard c); [discriminate|].
        destruct (open c); [reflexivity|discriminate]. }
      destruct (requests c) as [|m q] eqn:Hq.
      + exfalso. unfold waitForRequest_step in Hs. rewrite Ho, Hq in Hs.
        destruct (waitForRequest_guard c); discriminate.
      + unfold bind, modify, wake_first_handler, get, ret, handler_set,
          upd_handler, modify. cbn.
        destruct (response_handlers c) as [|h hs]; cbn;
          (split; [reflexivity|]); (split; [discriminate|]);
          (split; [intros Hc; congruence|]); intros _;
          right; exists m, q; repeat split. }
  split; [|split; [exact Hread|split]].
  - split.
    + intros Hr. apply Hstep.
      assert (Hd : waitForRequest_step c = StepRead
                   \/ waitForRequest_step c <> StepRead).
      { destruct (waitForRequest_step c);
          (left; reflexivity) || (right; discriminate). }
      destruct Hd as [Heq|Hne]; [exact Heq|].
      destruct (Hother Hne) as (Hi & Hb & _).
      destruct Hr as [Hr|(f & rest & Hf & Hr)]; [congruence|].
      rewrite Hi, Hf in Hr. exfalso. exact (not_own_tail f rest (eq_sym Hr)).
    + intros Hmay. specialize (Hread Hmay). unfold reads_frame.
      destruct (istream c) as [|f rest].
      * left. by rewrite Hread.
      * right. exists f, rest. split; [reflexivity|exact (proj1 Hread)].
  - intros Ho Hnm.
    assert (Hne : waitForRequest_step c <> StepRead).
    { intros Hs. apply Hnm, Hstep, Hs. }
    destruct (Hother Hne) as (Hi & _ & _ & Hopen).
    split; [exact Hi|exact (Hopen Ho)].
  - intros Hc.
    assert (Hne : waitForRequest_step c <> StepRead).
    { intros Hs. apply Hstep in Hs. destruct Hs as (Ho & _). congruence. }
    destruct (Hother Hne) as (_ & _ & Hclosed & _). exact (Hclosed Hc).
Qed.

(** ** The [waiting] count in [__waitForResponse] *)

Section KeepsWaiting.
Variable h : nat.

Lemma keeps_ret {A} (a : A) : keeps_waiting h (ret a).
Proof. intros c. split; reflexivity. Qed.

Lemma keeps_raise {A} (e : exn) : keeps_waiting h (@raise conn A e).
Proof. intros c. split; reflexivity. Qed.

Lemma keeps_block {A} (b : blockpoint) : keeps_waiting h (@block conn A b).
Proof. intros c. split; reflexivity. Qed.

Lemma keeps_lift {A} (o : outcome A) : keeps_waiting h (lift o).
Proof. intros c. split; reflexivity. Qed.

Lemma keeps_get : keeps_waiting h get.
Proof. intros c. split; reflexivity. Qed.

Lemma keeps_bind {A B} (m : M conn A) (k : A -> M conn B) :
  keeps_waiting h m -> (forall a, keeps_waiting h (k a)) ->
  keeps_waiting h (bind m k).
Proof.
  intros Hm Hk c. specialize (Hm c). unfold bind.
  destruct (m c) as [[a|e|b|] c1]; cbn in Hm; try exact Hm.
  destruct (Hk a c1) as [H1 H2]. destruct Hm as [H3 H4].
  split; congruence.
Qed.

Lemma keeps_finally {A} (m : M conn A) (f : M conn unit) :
  keeps_waiting h m -> keeps_waiting h f -> keeps_waiting h (finally m f).
Proof.
  intros Hm Hf c. specialize (Hm c). unfold finally.
  destruct (m c) as [[a|e|b|] c1]; cbn in Hm; try exact Hm;
    specialize (Hf c1); destruct (f c1) as [[u|e'|b'|] c2]; cbn in *;
    destruct Hm, Hf; split; congruence.
Qed.

Lemma keeps_upd_handler (h' : nat) (f : ResponseHandler -> ResponseHandler) :
  (forall o, syncrequest (f o) = syncrequest o) ->
  keeps_waiting h (upd_handler h' f).
Proof.
  intros Hf c. cbn. split; [reflexivity|].
  destruct (decide (h = h')); [apply Hf | reflexivity].
Qed.

Lemma keeps_handler_set (h' : nat) (m : option Message) :
  keeps_waiting h (handler_set h' m).
Proof. apply keeps_upd_handler. reflexivity. Qed.

Lemma keeps_handler_clear (h' : nat) : keeps_waiting h (handler_clear h').
Proof. apply keeps_upd_handler. reflexivity. Qed.

Lemma keeps_first_handler : keeps_waiting h first_handler.
Proof.
  intros c. unfold first_handler, bind, get.
  destruct (response_handlers c); split; reflexivity.
Qed.

Lemma keeps_del_first_handler : keeps_waiting h del_first_handler.
Proof.
  intros c. unfold del_first_handler, bind, get.
  destruct (response_handlers c); split; reflexivity.
Qed.

Lemma keeps_handler_wait (h' : nat) : keeps_waiting h (handler_wait h').
Proof.
  unfold handler_wait. apply keeps_bind; [apply keeps_get|]. intros c.
  destruct (event (heap c h')); [|apply keeps_block].
  apply keeps_bind; [apply keeps_handler_clear|]. intros _. apply keeps_ret.
Qed.

Lemma keeps_guard (m : option Message) :
  keeps_waiting h (waitForResponse_guard h m).
Proof.
  unfold waitForResponse_guard. apply keeps_bind; [apply keeps_get|].
  intros c. destruct (open c && is_none m); [|apply keeps_ret].
  destruct (receiving c); [apply keeps_ret|].
  apply keeps_bind; [apply keeps_first_handler|]. intros x. apply keeps_ret.
Qed.

Lemma keeps_loop (rounds : nat) (m : option Message) :
  keeps_waiting h (waitForResponse_loop rounds h m).
Proof.
  revert m. induction rounds as [|r IH]; intros m; cbn [waitForResponse_loop];
    (apply keeps_bind; [apply keeps_guard|]); intros g;
    (destruct g; [|apply keeps_ret]).
  - apply keeps_lift.
  - apply keeps_bind; [apply keeps_first_handler|]. intros first.
    apply keeps_bind.
    + case_bool_decide; [apply keeps_ret | apply keeps_handler_set].
    + intros _. apply keeps_bind; [apply keeps_handler_wait|]. apply IH.
Qed.

Lemma keeps_wait : keeps_waiting h (waitForResponse_wait h).
Proof.
  unfold waitForResponse_wait. apply keeps_bind; [apply keeps_get|].
  intros c. apply keeps_bind.
  - destruct (is_none (handler_get h c));
      [apply keeps_ret | apply keeps_handler_clear].
  - intros _. apply keeps_loop.
Qed.

Lemma keeps_modify (f : conn -> conn) :
  (forall c, waiting (f c) = waiting c /\ heap (f c) = heap c) ->
  keeps_waiting h (modify f).
Proof. intros Hf c. cbn. destruct (Hf c) as [H1 H2]. by rewrite H1, H2. Qed.

Lemma keeps_read_response (stream : list Message) :
  keeps_waiting h (read_response stream).
Proof.
  induction stream as [|m rest IH]; cbn [read_response];
    [apply keeps_block|].
  apply keeps_bind; [apply keeps_modify; intros c; split; reflexivity|].
  intros _. apply keeps_bind; [apply keeps_first_handler|]. intros _.
  destruct (in_response_types (mtype m)
            || bool_decide (mtype m = MessageType.syncrequest));
    [apply keeps_ret|].
  apply keeps_bind; [apply keeps_modify; intros c; split; reflexivity|].
  intros _. exact IH.
Qed.

Lemma keeps_receive (m : option Message) :
  keeps_waiting h (waitForResponse_receive m).
Proof.
  unfold waitForResponse_receive. apply keeps_bind; [apply keeps_get|].
  intros c. destruct (is_none m && open c).
  - apply keeps_bind; [apply keeps_modify; intros c0; split; reflexivity|].
    intros _. apply keeps_bind.
    + apply keeps_finally; [apply keeps_read_response|].
      apply keeps_modify; intros c0; split; reflexivity.
    + intros m'. apply keeps_bind; [|intros _; apply keeps_ret].
      destruct (in_response_types (mtype m'));
        [apply keeps_del_first_handler|].
      case_bool_decide; [|apply keeps_ret].
      apply keeps_modify; intros c0; split; reflexivity.
  - destruct (open c); [|apply keeps_ret].
    destruct m as [m'|]; [|apply keeps_ret].
    apply keeps_bind; [|intros _; apply keeps_ret].
    destruct (in_response_types (mtype m')); [|apply keeps_ret].
    apply keeps_bind; [apply keeps_del_first_handler|]. intros _.
    apply keeps_modify; intros c0; split; reflexivity.
Qed.
End KeepsWaiting.

(** Whatever message [__waitForResponse] returns, a response, an exception
    or a syncrequest that arrived in between, the [waiting] count has gone
    down by one when the handler is a syncrequest handler. *)
Lemma waitForResponse_waiting (h : nat) (c c' : conn) (r : option Message) :
  waitForResponse h c = (Return r, c') ->
  waiting c' = waiting c - (if syncrequest (heap c h) then 1 else 0).
Proof.
  unfold waitForResponse, finally. unfold bind at 1.
  destruct (keeps_wait h c) as [Hw1 Hs1].
  destruct (waitForResponse_wait h c) as [[m| | |] c1]; try discriminate.
  cbn [snd] in Hw1, Hs1. unfold bind at 1.
  destruct (keeps_receive h m c1) as [Hw2 Hs2].
  destruct (waitForResponse_receive m c1) as [[m'| | |] c2]; try discriminate.
  cbn [snd] in Hw2, Hs2.
  unfold waitForResponse_finish, bind, get, modify, ret, notify.
  rewrite Hs2, Hs1.
  destruct (syncrequest (heap c h)); cbn;
    destruct (negb (open c2) && is_none m'); cbn;
    unfold del_first_handler, bind, get, modify, raise; cbn;
    try (destruct (response_handlers c2); cbn; discriminate);
    intros Hr; inversion Hr; cbn; lia.
Qed.

(** C6, on the code.  Thread 1, inside the handler of a request, has sent
    a nested request (handler 0, a syncrequest handler; [waiting] is 1) and
    the peer sends a syncrequest before its response.  [__waitForResponse]
    returns that syncrequest with [waiting] already decremented to 0,
    although handler 0 is still registered and its response still pending;
    after the syncrequest is handled the second [__waitForResponse] finds
    [processing] (1) above [waiting] (0) and parks the thread, the response
    left unread on the input stream. *)
Theorem waitForResponse_decrements_waiting_on_syncrequest :
  let c := Sample.nested_waiting in
  let r := waitForResponse 0 c in
  syncrequest (heap c 0%nat) = true
  /\ waiting c = 1
  /\ fst r = Return (Some Sample.peer_syncrequest)
  /\ waiting (snd r) = 0
  /\ response_handlers (snd r) = [0%nat]
  /\ (let r2 := send_request_wait Sample.externals Sample.request_handler
                  1 2 1 0%nat c in
      fst r2 = Blocked (OnHandler 0)
      /\ processing (snd r2) = 1 /\ waiting (snd r2) = 0
      /\ istream (snd r2) = [Sample.peer_response]).
Proof. vm_compute. repeat split. Qed.

(** ** Failures in [__handle] *)

Lemma leave_handle_fields (tid : Z) (m : Message) (c : conn) :
  processing (leave_handle tid m c) = processing c
  /\ notifies (leave_handle tid m c) = notifies c
  /\ ostream (leave_handle tid m c) = ostream c.
Proof.
  unfold leave_handle. destruct (negb (in_response_types (mtype m)));
    repeat split.
Qed.

(** C7. Let the handling of message [m] (unmarshaling its payload and
    running the registered handler) fail with the error [e], in state [c1].
    - If [e] is not an exit request and [m] is not an exception frame,
      [__handle] returns normally: [processing] has gone down by one, the
      condition was notified if it reached zero, and the one frame written
      is an exception frame carrying the marshaled error.
    - If [e] is an exit request, a response frame carrying the exit code is
      written ([processing] released as for any response) and the error is
      raised again to the caller.
    - If [e] is not an exit request and [m] is an exception frame, the
      error is raised to the caller and the state is as the failure left
      it: nothing is written, no slot released. *)
Theorem handle_failure (E : Externals)
    (request_handler : Z -> option (pyobj -> M conn pyobj))
    (fuel : nat) (tid : Z) (m : Message) (c c1 : conn) (e : exn) :
  dispatch E request_handler fuel m (enter_handle tid m c) = (Raise e, c1) ->
  let r := handle E request_handler fuel tid m c in
  (is_exit e = false -> mtype m <> MessageType.exception ->
   forall p tb,
     marshal E fuel (exc_object E e) (tabs c1) = (Return p, tb) ->
     fst r = Return PyNone
     /\ processing (snd r) = processing c1 - 1
     /\ notifies (snd r)
        = (if bool_decide (processing c1 - 1 = 0) then S (notifies c1)
           else notifies c1)
     /\ ostream (snd r)
        = ostream c1 ++ [{| mtype := MessageType.exception; payload := p |}])
  /\ (forall exit_code, e = SystemExit exit_code ->
      forall p tb,
        marshal E fuel exit_code (tabs c1) = (Return p, tb) ->
        fst r = Raise (SystemExit exit_code)
        /\ processing (snd r) = processing c1 - 1
        /\ notifies (snd r)
           = (if bool_decide (processing c1 - 1 = 0) then S (notifies c1)
              else notifies c1)
        /\ ostream (snd r)
           = ostream c1 ++ [{| mtype := MessageType.response; payload := p |}])
  /\ (is_exit e = false -> mtype m = MessageType.exception ->
      r = (Raise e, c1)).
Proof.
  intros Hd r.
  assert (Hr : r = finally
            (match e with
             | SystemExit exit_code =>
                 send_response E fuel exit_code ;;; raise e
             | _ =>
                 if bool_decide (mtype m = MessageType.exception)
                 then raise e
                 else
                   release_processing ;;;
                   send_message E fuel MessageType.exception
                     (exc_object E e) ;;;
                   ret PyNone
             end)
            (modify (leave_handle tid m)) c1).
  { subst r. unfold handle, bind at 1, modify at 1.
    unfold finally, try_except. unfold bind at 1. rewrite Hd.
    destruct e; reflexivity. }
  split; [|split].
  - intros Hne Hmt p tb Hp. rewrite Hr. unfold finally.
    assert (Hbody :
      (release_processing ;;;
       send_message E fuel MessageType.exception (exc_object E e) ;;;
       ret PyNone) c1
      = (Return PyNone,
         upd_ostream (fun o => o ++ [{| mtype := MessageType.exception;
                                       payload := p |}])
           (upd_tabs (fun _ => tb)
              ((if bool_decide (processing c1 - 1 = 0)
                then upd_notifies S else fun x => x)
                 (upd_processing (fun q => q - 1) c1))))).
    { unfold release_processing, send_message, on_tables, notify, bind, get,
        modify, ret. cbn.
      destruct (bool_decide (processing c1 - 1 = 0)); cbn; rewrite Hp;
        reflexivity. }
    rewrite bool_decide_eq_false_2 by exact Hmt.
    destruct e; try discriminate Hne; rewrite Hbody; unfold modify;
      destruct (leave_handle_fields tid m
        (upd_ostream (fun o => o ++ [{| mtype := MessageType.exception;
                                      payload := p |}])
           (upd_tabs (fun _ => tb)
              ((if bool_decide (processing c1 - 1 = 0)
                then upd_notifies S else fun x => x)
                 (upd_processing (fun q => q - 1) c1)))))
        as (H1 & H2 & H3);
      cbn [fst snd]; rewrite H1, H2, H3;
      case_bool_decide; repeat split.
  - intros exit_code -> p tb Hp. rewrite Hr. unfold finally.
    assert (Hbody :
      (send_response E fuel exit_code ;;;
       @raise conn pyobj (SystemExit exit_code)) c1
      = (Raise (SystemExit exit_code),
         upd_ostream (fun o => o ++ [{| mtype := MessageType.response;
                                       payload := p |}])
           (upd_tabs (fun _ => tb)
              ((if bool_decide (processing c1 - 1 = 0)
                then upd_notifies S else fun x => x)
                 (upd_processing (fun q => q - 1) c1))))).
    { unfold send_response, send_message, on_tables, notify, bind, get,
        modify, ret, raise. cbn.
      destruct (bool_decide (processing c1 - 1 = 0)); cbn; rewrite Hp;
        reflexivity. }
    rewrite Hbody. unfold modify.
    destruct (leave_handle_fields tid m
        (upd_ostream (fun o => o ++ [{| mtype := MessageType.response;
                                      payload := p |}])
           (upd_tabs (fun _ => tb)
              ((if bool_decide (processing c1 - 1 = 0)
                then upd_notifies S else fun x => x)
                 (upd_processing (fun q => q - 1) c1)))))
        as (H1 & H2 & H3).
    cbn [fst snd]. rewrite H1, H2, H3.
    case_bool_decide; repeat split.
  - intros Hne Hmt. rewrite Hr. unfold finally.
    rewrite bool_decide_eq_true_2 by exact Hmt.
    unfold modify, leave_handle. rewrite Hmt. cbn.
    destruct e; try discriminate Hne; reflexivity.
Qed.

Lemma handle_failure_witness :
  let m := Sample.failing_request in
  let c := Sample.request_taken in
  let r := handle Sample.externals Sample.request_handler 1 1 m c in
  dispatch Sample.externals Sample.request_handler 1 m (enter_handle 1 m c)
  = (Raise (Failure (PyObject 9)), enter_handle 1 m c)
  /\ fst r = Return PyNone
  /\ processing (snd r) = 0
  /\ notifies (snd r) = 1%nat
  /\ map mtype (ostream (snd r)) = [MessageType.exception].
Proof.
  intros m c r.
  assert (Hd : dispatch Sample.externals Sample.request_handler 1 m
                 (enter_handle 1 m c)
               = (Raise (Failure (PyObject 9)), enter_handle 1 m c))
    by reflexivity.
  split; [exact Hd|].
  destruct (handle_failure Sample.externals Sample.request_handler 1 1 m c
              (enter_handle 1 m c) (Failure (PyObject 9)) Hd) as (H1 & _ & _).
  destruct (H1 eq_refl ltac:(discriminate)
              (tag_p :: "("%byte :: [x02; "i"; "F"; x02; "i"; x00;
                                       x02; "i"; x00]%byte)
              (snd (marshal Sample.externals 1 (PyObject 70)
                      (tabs (enter_handle 1 m c))))
              eq_refl) as (Ha & Hb & Hc & Hd').
  fold r in Ha, Hb, Hc, Hd'.
  split; [exact Ha|]. split; [exact Hb|]. split; [exact Hc|].
  rewrite Hd'. reflexivity.
Defined.

(** ** Nested requests *)

Lemma message_handlers_registered (E : Externals)
    (request_handler : Z -> option (pyobj -> M conn pyobj))
    (fuel : nat) (mt : MessageType.t) :
  (forall op, mt = MessageType.request op -> is_Some (request_handler op)) ->
  is_Some (message_handlers E request_handler fuel mt).
Proof.
  intros Hreg. destruct mt, fuel; cbn; eauto.
Qed.

(** Handling a syncrequest whose payload is the pair of a code and a
    payload comes to handling the payload under the type of that code. *)
Lemma dispatch_syncrequest (E : Externals)
    (request_handler : Z -> option (pyobj -> M conn pyobj))
    (n : nat) (mt : MessageType.t) (a : bytes) (c : conn) :
  plain E (PyTuple [PyInt (code E mt); PyStr a]) ->
  message_types E (code E mt) = Some mt ->
  is_Some (message_handlers E request_handler (S n) mt) ->
  dispatch E request_handler (S (S n))
    {| mtype := MessageType.syncrequest;
       payload := encode E (PyTuple [PyInt (code E mt); PyStr a]) |} c
  = dispatch E request_handler (S n) {| mtype := mt; payload := a |} c.
Proof.
  intros Hplain Htypes [h Hh].
  unfold dispatch. cbn [mtype payload].
  destruct (round_trip_plain E (S (S n)) _ Hplain ltac:(cbn; lia)) as [_ Hu].
  unfold bind at 1, on_tables. rewrite Hu.
  assert (Hc : upd_tabs (fun _ => tabs c) c = c) by (by destruct c).
  rewrite Hc, Hh.
  change (message_handlers E request_handler (S (S n))
            MessageType.syncrequest)
    with (Some (handle_syncrequest E
                  (message_handlers E request_handler (S n))
                  (unmarshal E (S n)))).
  unfold handle_syncrequest. rewrite Htypes, Hh. reflexivity.
Qed.

(** C2. A request made by a thread whose [request_count] is positive goes
    out as one frame of type syncrequest whose payload is the marshaled
    pair of the code of the request type and the marshaled arguments.  On
    the receiving side, handling that frame unwraps the pair, unmarshals
    the inner payload and calls the handler registered for the type of the
    inner code: handler, arguments, result and state are those of handling
    the frame a direct request writes (type [mt], payload the marshaled
    arguments). *)
Theorem nested_request_is_syncrequest (E : Externals)
    (request_handler : Z -> option (pyobj -> M conn pyobj))
    (fuel : nat) (tid : Z) (mt : MessageType.t) (args : pyobj) (c : conn)
    (a : bytes) (tb : tables) :
  open c = true ->
  request_count_of c tid > 0 ->
  marshal E (S (S fuel)) args (tabs c) = (Return a, tb) ->
  plain E (PyTuple [PyInt (code E mt); PyStr a]) ->
  message_types E (code E mt) = Some mt ->
  (forall op, mt = MessageType.request op -> is_Some (request_handler op)) ->
  let pair := PyTuple [PyInt (code E mt); PyStr a] in
  exists p h c',
    send_request_begin E (S (S fuel)) tid mt args c = (Return h, c')
    /\ ostream c'
       = ostream c ++ [{| mtype := MessageType.syncrequest; payload := p |}]
    /\ (forall tb', unmarshal E 2 p tb' = (Return pair, tb'))
    /\ ostream (snd (send_message E (S (S fuel)) mt args c))
       = ostream c ++ [{| mtype := mt; payload := a |}]
    /\ (forall n c2,
          dispatch E request_handler (S (S n))
            {| mtype := MessageType.syncrequest; payload := p |} c2
          = dispatch E request_handler (S n)
              {| mtype := mt; payload := a |} c2).
Proof.
  intros Hopen Hcount Hargs Hplain Htypes Hreg pair.
  exists (encode E pair).
  destruct (round_trip_plain E 2 pair Hplain ltac:(cbn; lia)) as [_ Hu2].
  destruct (round_trip_plain E (S (S fuel)) pair Hplain ltac:(cbn; lia))
    as [Hm _].
  set (c1 := upd_tabs (fun _ => tb) c).
  assert (Hrewrap : rewrap E (S (S fuel)) tid mt args c
                    = (Return (MessageType.syncrequest, pair), c1)).
  { unfold rewrap, bind, get, on_tables.
    rewrite bool_decide_eq_true_2 by exact Hcount. rewrite Hargs.
    reflexivity. }
  destruct (register_handler_spec tid MessageType.syncrequest c1)
    as (c2 & Hregister & _ & _ & _ & _ & _ & Htabs & Hostream).
  set (c3 := upd_ostream
               (fun o => o ++ [{| mtype := MessageType.syncrequest;
                                  payload := encode E pair |}])
               (upd_tabs (fun _ => tabs c2) c2)).
  exists (next_handler c1), c3.
  split; [|split; [|split; [|split]]].
  - unfold send_request_begin, bind at 1, get. rewrite Hopen. cbn [negb].
    unfold bind at 1. rewrite Hrewrap. cbn [fst snd].
    unfold bind at 1. rewrite Hregister.
    unfold send_message, on_tables, modify, ret, bind. cbn [fst snd].
    rewrite Hm. reflexivity.
  - subst c3. cbn. rewrite Hostream. reflexivity.
  - exact Hu2.
  - unfold send_message, bind, on_tables, modify. rewrite Hargs. reflexivity.
  - intros n c2'. apply dispatch_syncrequest; [exact Hplain|exact Htypes|].
    apply message_handlers_registered. exact Hreg.
Qed.

Lemma nested_request_is_syncrequest_witness :
  let c := Sample.serving_state in
  let mt := MessageType.request 0 in
  open c = true /\ request_count_of c 1 > 0
  /\ exists p h c',
       send_request_begin Sample.externals 2 1 mt PyNone c = (Return h, c')
       /\ ostream c'
          = ostream c ++ [{| mtype := MessageType.syncrequest; payload := p |}]
       /\ forall n c2,
            dispatch Sample.externals Sample.request_handler (S (S n))
              {| mtype := MessageType.syncrequest; payload := p |} c2
            = dispatch Sample.externals Sample.request_handler (S n)
                {| mtype := mt; payload := [tag_s; "N"%byte] |} c2.
Proof.
  intros c mt.
  assert (Hopen : open c = true) by reflexivity.
  assert (Hcount : request_count_of c 1 > 0) by reflexivity.
  assert (Hplain : plain Sample.externals
            (PyTuple [PyInt (code Sample.externals mt);
                      PyStr [tag_s; "N"%byte]])).
  { cbn [plain map fold_right encode concat].
    repeat split; try (apply (bool_decide_eq_true_1 _); reflexivity).
    - eexists. split; reflexivity.
    - eexists. split; reflexivity. }
  assert (Hreg : forall op, mt = MessageType.request op ->
                   is_Some (Sample.request_handler op)).
  { intros op Hop. inversion Hop. subst op. eexists. reflexivity. }
  split; [exact Hopen|]. split; [exact Hcount|].
  destruct (nested_request_is_syncrequest Sample.externals
              Sample.request_handler 0 1 mt PyNone c
              [tag_s; "N"%byte] (tabs c)
              Hopen Hcount eq_refl Hplain eq_refl Hreg)
    as (p & h & c' & Hsend & Hout & _ & _ & Hdispatch).
  exists p, h, c'. split; [exact Hsend|]. split; [exact Hout|exact Hdispatch].
Defined.

(** * Further properties of the marshaler *)

Lemma extends_refl (tb : tables) : extends tb tb.
Proof. repeat split; auto. Qed.

Lemma extends_trans (tb1 tb2 tb3 : tables) :
  extends tb1 tb2 -> extends tb2 tb3 -> extends tb1 tb3.
Proof.
  intros (A1 & A2 & A3 & A4) (B1 & B2 & B3 & B4).
  repeat split; try congruence. intros k v Hk. apply B4, A4, Hk.
Qed.

Section MarshalTables.
Variable E : Externals.
Variable rec : pyobj -> M tables bytes.
Hypothesis rec_extends : forall obj tb, extends tb (snd (rec obj tb)).

Lemma marshal_items_extends (items : list pyobj) :
  forall acc tb, extends tb (snd (marshal_items rec items acc tb)).
Proof.
  induction items as [|x items IH]; intros acc tb; cbn [marshal_items].
  - apply extends_refl.
  - unfold bind at 1. pose proof (rec_extends x tb) as Hx.
    destruct (rec x tb) as [[part| | |] tb1]; cbn [snd] in *; try exact Hx.
    unfold bind at 1, lift.
    destruct (pack_u32 (Z.of_nat (length part))); cbn [snd]; try exact Hx.
    eapply extends_trans; [exact Hx | apply IH].
Qed.

Lemma marshal_by_identity_extends (obj : pyobj) (tb : tables) :
  extends tb (snd (marshal_by_identity E rec obj tb)).
Proof.
  unfold marshal_by_identity, bind at 1, get.
  case_bool_decide as Hin; [apply extends_refl|].
  destruct (proxy_ids tb !! py_id E obj); [apply extends_refl|].
  assert (Hnone : proxied_objects tb !! py_id E obj = None).
  { destruct (proxied_objects tb !! py_id E obj) eqn:Hl; [|reflexivity].
    exfalso. apply Hin. eauto. }
  assert (Hins : forall tb1, extends tb tb1 ->
            extends tb (set_proxied_objects
                          (fun d => <[py_id E obj := obj]> d) tb1)).
  { intros tb1 (A1 & A2 & A3 & A4). repeat split; try assumption.
    intros k v Hk. cbn. rewrite lookup_insert_ne; [apply A4, Hk|].
    intros Heq. subst k. congruence. }
  destruct (ProxyType_get E obj) as [k|k args].
  - cbn. apply Hins, extends_refl.
  - unfold bind at 1. unfold bind at 1.
    pose proof (rec_extends args tb) as Ha.
    destruct (rec args tb) as [[a| | |] tb1]; cbn [snd] in *; try exact Ha.
    cbn. apply Hins, Ha.
Qed.

Lemma marshal_body_extends (obj : pyobj) (tb : tables) :
  extends tb (snd (marshal_body E rec obj tb)).
Proof.
  unfold marshal_body.
  destruct (marshal_simple E obj); [apply extends_refl|].
  destruct obj; try apply marshal_by_identity_extends.
  unfold try_except.
  pose proof (marshal_items_extends items [tag_t] tb) as Hi.
  destruct (marshal_items rec items [tag_t] tb) as [[p|e|b|] tb1];
    cbn [snd] in *; try exact Hi.
  destruct e; try exact Hi.
  eapply extends_trans; [exact Hi | apply marshal_by_identity_extends].
Qed.
End MarshalTables.

(** X1. [__marshal] only ever adds to [proxied_objects]: whatever it is
    given and however it ends, [proxies], [pending_proxies] and
    [proxy_ids] are as before and no entry of [proxied_objects] is removed
    or replaced. *)
Theorem marshal_extends_tables (E : Externals) (fuel : nat) (obj : pyobj)
    (tb : tables) :
  extends tb (snd (marshal E fuel obj tb)).
Proof.
  revert obj tb. induction fuel as [|n IH]; intros obj tb.
  - apply extends_refl.
  - cbn [marshal]. apply marshal_body_extends. exact IH.
Qed.

Lemma marshal_items_prefix (rec : pyobj -> M tables bytes)
    (items : list pyobj) :
  forall acc tb p tb',
    marshal_items rec items acc tb = (Return p, tb') ->
    exists suffix, p = acc ++ suffix.
Proof.
  induction items as [|x items IH]; intros acc tb p tb'; cbn [marshal_items].
  - intros Hr. inversion Hr. exists []. by rewrite app_nil_r.
  - unfold bind at 1. destruct (rec x tb) as [[part| | |] tb1];
      try discriminate.
    unfold bind at 1, lift.
    destruct (pack_u32 (Z.of_nat (length part))) as [size| | |];
      try discriminate.
    intros Hr. destruct (IH _ _ _ _ Hr) as [suffix ->].
    exists (size ++ part ++ suffix). by rewrite <- !app_assoc.
Qed.

(** X2. Every payload [__marshal] returns starts with one of the four tag
    bytes [s], [t], [p], [o]: [__unmarshal] never refuses the prefix of a
    payload that [__marshal] wrote. *)
Theorem marshal_payload_tagged (E : Externals) (fuel : nat) (obj : pyobj)
    (tb tb' : tables) (p : bytes) :
  marshal E fuel obj tb = (Return p, tb') -> tagged_payload p.
Proof.
  destruct fuel as [|n]; [discriminate|].
  cbn [marshal]. unfold marshal_body, marshal_simple.
  assert (Hid : forall tb0, marshal_by_identity E (marshal E n) obj tb0
                            = (Return p, tb') -> tagged_payload p).
  { intros tb0 Hm.
    destruct (marshal_by_identity_tag _ _ _ _ _ _ Hm) as [rest [->| ->]];
      exists rest; auto. }
  case_bool_decide.
  - destruct (dumps E obj) as [b|e|b|] eqn:Hd; cbn.
    + intros Hr. inversion Hr. exists b. auto.
    + destruct e; try discriminate.
      destruct obj; try apply Hid.
      unfold try_except.
      destruct (marshal_items (marshal E n) items [tag_t] tb)
        as [[q|e|b|] tb1] eqn:Hi; try discriminate.
      * intros Hr. inversion Hr. subst.
        destruct (marshal_items_prefix _ _ _ _ _ _ Hi) as [suffix ->].
        exists suffix. auto.
      * destruct e; try discriminate. apply Hid.
    + discriminate.
    + discriminate.
  - destruct obj; try apply Hid.
    unfold try_except.
    destruct (marshal_items (marshal E n) items [tag_t] tb)
      as [[q|e|b|] tb1] eqn:Hi; try discriminate.
    + intros Hr. inversion Hr. subst.
      destruct (marshal_items_prefix _ _ _ _ _ _ Hi) as [suffix ->].
      exists suffix. auto.
    + destruct e; try discriminate. apply Hid.
Qed.

Lemma marshal_payload_tagged_witness :
  marshal Sample.externals 1 (PyObject 7) (tabs init)
  = (Return (tag_p :: "("%byte :: [x02; "i"; x07; x02; "i"; x00;
                                   x02; "i"; x00]%byte),
     set_proxied_objects (fun d => <[7 := PyObject 7]> d) (tabs init))
  /\ tagged_payload (tag_p :: "("%byte :: [x02; "i"; x07; x02; "i"; x00;
                                          x02; "i"; x00]%byte).
Proof.
  assert (Hm : marshal Sample.externals 1 (PyObject 7) (tabs init)
    = (Return (tag_p :: "("%byte :: [x02; "i"; x07; x02; "i"; x00;
                                     x02; "i"; x00]%byte),
       set_proxied_objects (fun d => <[7 := PyObject 7]> d) (tabs init)))
    by reflexivity.
  split; [exact Hm|].
  exact (marshal_payload_tagged Sample.externals 1 (PyObject 7) (tabs init)
           _ _ Hm).
Defined.

(** X3. Once a local object has been marshaled by identity, marshaling it
    again sends only its identity (tag [p], the proxy tables untouched):
    the introduction is sent once. *)
Theorem marshal_again_is_reference (E : Externals) (fuel fuel' : nat)
    (obj : pyobj) (tb tb1 : tables) (p : bytes) :
  marshal_simple E obj = None ->
  (forall items, obj <> PyTuple items) ->
  proxy_ids tb !! py_id E obj = None ->
  marshal E (S fuel) obj tb = (Return p, tb1) ->
  marshal E (S fuel') obj tb1
  = (tagged tag_p (dumps E (PyInt (py_id E obj))), tb1).
Proof.
  intros Hsimple Hnt Hids Hfirst.
  assert (Hred : forall n tb0,
            marshal E (S n) obj tb0
            = marshal_by_identity E (marshal E n) obj tb0).
  { intros n tb0. cbn [marshal]. unfold marshal_body. rewrite Hsimple.
    destruct obj; try reflexivity. exfalso. by eapply Hnt. }
  assert (Hin : is_Some (proxied_objects tb1 !! py_id E obj)).
  { rewrite Hred in Hfirst. revert Hfirst.
    unfold marshal_by_identity, bind at 1, get.
    case_bool_decide as Hin0.
    - unfold lift. intros Hr. inversion Hr. subst. exact Hin0.
    - rewrite Hids. unfold bind at 1.
      destruct (ProxyType_get E obj) as [k|k args].
      + cbn. intros Hr. inversion Hr. cbn. rewrite lookup_insert_eq. eauto.
      + unfold bind at 1.
        destruct (marshal E fuel args tb) as [[a| | |] tb0]; try discriminate.
        cbn. intros Hr. inversion Hr. cbn. rewrite lookup_insert_eq. eauto. }
  rewrite Hred. unfold marshal_by_identity, bind, get, lift.
  rewrite bool_decide_eq_true_2 by exact Hin. reflexivity.
Qed.

Lemma marshal_again_is_reference_witness :
  let tb1 := set_proxied_objects (fun d => <[7 := PyObject 7]> d)
               (tabs init) in
  marshal Sample.externals 1 (PyObject 7) tb1
  = (Return [tag_p; "i"; x07]%byte, tb1).
Proof.
  exact (marshal_again_is_reference Sample.externals 0 0 (PyObject 7)
           (tabs init)
           (set_proxied_objects (fun d => <[7 := PyObject 7]> d) (tabs init))
           (tag_p :: "("%byte :: [x02; "i"; x07; x02; "i"; x00;
                                  x02; "i"; x00]%byte)
           eq_refl ltac:(discriminate) eq_refl eq_refl).
Defined.

(** * Further properties of the unmarshaler *)

Lemma pyobj_eqb_refl : forall a : pyobj, pyobj_eqb a a = true.
Proof.
  fix IH 1. intros [n|s|ty c|items|i]; cbn.
  - by rewrite bool_decide_eq_true_2.
  - by rewrite bool_decide_eq_true_2.
  - by rewrite !bool_decide_eq_true_2.
  - induction items as [|x xs IHxs]; [reflexivity|].
    rewrite (IH x). exact IHxs.
  - by rewrite bool_decide_eq_true_2.
Qed.

Lemma dict_get_set (d : list (pyobj * pyobj)) (k v : pyobj) :
  dict_get (dict_set d k v) k = Some v.
Proof.
  induction d as [|[k' v'] d IH]; cbn.
  - by rewrite pyobj_eqb_refl.
  - destruct (pyobj_eqb k' k) eqn:Hk; cbn; rewrite Hk; [reflexivity|exact IH].
Qed.

Lemma key_in_del (ks : list pyobj) (k : pyobj) :
  key_in (key_del ks k) k = false.
Proof.
  unfold key_in, key_del. induction ks as [|x ks IH]; [reflexivity|].
  rewrite filter_cons.
  destruct (decide (pyobj_eqb x k = false)) as [Hx|Hx]; [|exact IH].
  cbn [existsb]. by rewrite Hx, IH.
Qed.

Lemma key_in_app_self (ks : list pyobj) (k : pyobj) :
  key_in (ks ++ [k]) k = true.
Proof.
  unfold key_in. rewrite existsb_app. cbn. rewrite pyobj_eqb_refl.
  by rewrite orb_true_r.
Qed.

(** X4. An object that [__marshal] introduced to the peer is found again
    when the peer sends it back as an origin reference: [__unmarshal] of
    [o] followed by the encoding of its identity returns the object itself
    and changes nothing. *)
Theorem origin_reference_resolves (E : Externals) (fuel n : nat)
    (obj : pyobj) (tb tb1 : tables) (p b : bytes) :
  marshal_simple E obj = None ->
  (forall items, obj <> PyTuple items) ->
  proxied_objects tb !! py_id E obj = None ->
  proxy_ids tb !! py_id E obj = None ->
  marshal E (S fuel) obj tb = (Return p, tb1) ->
  loads E b = Return (PyInt (py_id E obj)) ->
  unmarshal E (S n) (tag_o :: b) tb1 = (Return obj, tb1).
Proof.
  intros Hsimple Hnt Hnone Hids Hm Hloads.
  assert (Hrec : proxied_objects tb1 !! py_id E obj = Some obj).
  { revert Hm. cbn [marshal]. unfold marshal_body. rewrite Hsimple.
    assert (Hid : marshal_by_identity E (marshal E fuel) obj tb
                  = (Return p, tb1) ->
                  proxied_objects tb1 !! py_id E obj = Some obj).
    { unfold marshal_by_identity, bind at 1, get.
      rewrite bool_decide_eq_false_2
        by (rewrite Hnone; intros [x Hx]; discriminate Hx).
      rewrite Hids. unfold bind at 1.
      destruct (ProxyType_get E obj) as [k|k args].
      - cbn. intros Hr. inversion Hr. cbn. apply lookup_insert_eq.
      - unfold bind at 1.
        destruct (marshal E fuel args tb) as [[a| | |] tb0]; try discriminate.
        cbn. intros Hr. inversion Hr. cbn. apply lookup_insert_eq. }
    destruct obj; try exact Hid. exfalso. by eapply Hnt. }
  rewrite unmarshal_first_byte.
  rewrite !bool_decide_eq_false_2 by discriminate.
  rewrite bool_decide_eq_true_2 by reflexivity.
  unfold unmarshal_origin, bind, lift, get. rewrite Hloads. cbn.
  rewrite Hrec. reflexivity.
Qed.

Lemma origin_reference_resolves_witness :
  unmarshal Sample.externals 1 [tag_o; "i"; x07]%byte
    (set_proxied_objects (fun d => <[7 := PyObject 7]> d) (tabs init))
  = (Return (PyObject 7),
     set_proxied_objects (fun d => <[7 := PyObject 7]> d) (tabs init)).
Proof.
  exact (origin_reference_resolves Sample.externals 0 0 (PyObject 7)
           (tabs init)
           (set_proxied_objects (fun d => <[7 := PyObject 7]> d) (tabs init))
           (tag_p :: "("%byte :: [x02; "i"; x07; x02; "i"; x00;
                                  x02; "i"; x00]%byte)
           ["i"; x07]%byte
           eq_refl ltac:(discriminate) eq_refl eq_refl eq_refl eq_refl).
Defined.

(** What unmarshaling an introduction without constructor arguments does. *)
Lemma unmarshal_introduction (E : Externals) (n : nat)
    (id0 opmask kind : pyobj) (b1 : bytes) (tb : tables) :
  loads E b1 = Return (PyTuple [id0; opmask; kind]) ->
  unmarshal E (S n) (tag_p :: b1) tb
  = (Return (Proxy E id0 opmask kind None),
     (if key_in (pending_proxies tb) id0
      then set_pending_proxies (fun ks => key_del ks id0)
      else fun t => t)
       (register_proxy E (Proxy E id0 opmask kind None) id0 tb)).
Proof.
  intros Hl1. rewrite unmarshal_first_byte.
  rewrite !bool_decide_eq_false_2 by discriminate.
  rewrite bool_decide_eq_true_2 by reflexivity.
  unfold unmarshal_proxy, bind at 1, lift. rewrite Hl1.
  cbn [length]. rewrite bool_decide_eq_false_2 by lia.
  unfold new_proxy, bind, ret, modify, get. cbn.
  unfold key_in.
  destruct (existsb (fun k' => pyobj_eqb k' id0) (pending_proxies tb));
    reflexivity.
Qed.

(** X5. When the introduction of a remote object (tag [p], a tuple of
    identity, opmask and kind) has been unmarshaled, the proxy built for it
    is registered both ways, no pending entry is left for its identity, and
    a later reference to the same identity (tag [p], the identity alone)
    returns that same proxy without waiting and without changing the
    tables. *)
Theorem introduction_then_reference (E : Externals) (n n' : nat)
    (id0 opmask kind : pyobj) (b1 b2 : bytes) (tb : tables) :
  loads E b1 = Return (PyTuple [id0; opmask; kind]) ->
  loads E b2 = Return id0 ->
  (forall xs, id0 <> PyTuple xs) ->
  let p := Proxy E id0 opmask kind None in
  let tb1 := snd (unmarshal E (S n) (tag_p :: b1) tb) in
  fst (unmarshal E (S n) (tag_p :: b1) tb) = Return p
  /\ dict_get (proxies tb1) id0 = Some p
  /\ proxy_ids tb1 !! py_id E p = Some id0
  /\ key_in (pending_proxies tb1) id0 = false
  /\ unmarshal E (S n') (tag_p :: b2) tb1 = (Return p, tb1).
Proof.
  intros Hl1 Hl2 Hnt p tb1.
  pose proof (unmarshal_introduction E n id0 opmask kind b1 tb Hl1) as Hrun.
  fold p in Hrun.
  assert (Htb1 : tb1 = (if key_in (pending_proxies tb) id0
                        then set_pending_proxies (fun ks => key_del ks id0)
                        else fun t => t) (register_proxy E p id0 tb))
    by (subst tb1; rewrite Hrun; reflexivity).
  assert (Hget : dict_get (proxies tb1) id0 = Some p).
  { rewrite Htb1. destruct (key_in (pending_proxies tb) id0); cbn;
      apply dict_get_set. }
  split; [by rewrite Hrun|]. split; [exact Hget|]. split; [|split].
  - rewrite Htb1. destruct (key_in (pending_proxies tb) id0); cbn;
      apply lookup_insert_eq.
  - rewrite Htb1. destruct (key_in (pending_proxies tb) id0) eqn:Hk; cbn;
      [apply key_in_del | exact Hk].
  - rewrite unmarshal_first_byte.
    rewrite !bool_decide_eq_false_2 by discriminate.
    rewrite bool_decide_eq_true_2 by reflexivity.
    unfold unmarshal_proxy, bind at 1, lift. rewrite Hl2.
    destruct id0; try (unfold bind, get; rewrite Hget; reflexivity).
    exfalso. by eapply Hnt.
Qed.

Lemma introduction_then_reference_witness :
  let b1 := [ "("; x02; "i"; x07; x02; "i"; x00; x02; "i"; x00 ]%byte in
  let b2 := [ "i"; x07 ]%byte in
  let tb1 := snd (unmarshal Sample.externals 1 (tag_p :: b1) (tabs init)) in
  loads Sample.externals b1 = Return (PyTuple [PyInt 7; PyInt 0; PyInt 0])
  /\ loads Sample.externals b2 = Return (PyInt 7)
  /\ unmarshal Sample.externals 1 (tag_p :: b2) tb1
     = (Return (PyObject 5007), tb1).
Proof.
  intros b1 b2 tb1.
  split; [reflexivity|]. split; [reflexivity|].
  exact (proj2 (proj2 (proj2 (proj2
           (introduction_then_reference Sample.externals 0 0
              (PyInt 7) (PyInt 0) (PyInt 0) b1 b2 (tabs init)
              eq_refl eq_refl ltac:(discriminate)))))).
Defined.

(** X6. When the reference to a remote object arrives before its
    introduction, [__unmarshal] records a pending entry for the identity
    and parks; unmarshaling the introduction then removes the pending
    entry and registers the proxy, which is what the parked thread finds
    in [proxies] when it resumes. *)
Theorem reference_before_introduction (E : Externals) (n n' : nat)
    (id0 opmask kind : pyobj) (b1 b2 : bytes) (tb : tables) :
  loads E b1 = Return (PyTuple [id0; opmask; kind]) ->
  loads E b2 = Return id0 ->
  (forall xs, id0 <> PyTuple xs) ->
  dict_get (proxies tb) id0 = None ->
  let r := unmarshal E (S n) (tag_p :: b2) tb in
  let tb2 := snd (unmarshal E (S n') (tag_p :: b1) (snd r)) in
  fst r = Blocked (OnPendingProxy id0)
  /\ key_in (pending_proxies (snd r)) id0 = true
  /\ proxies (snd r) = proxies tb
  /\ key_in (pending_proxies tb2) id0 = false
  /\ dict_get (proxies tb2) id0 = Some (Proxy E id0 opmask kind None).
Proof.
  intros Hl1 Hl2 Hnt Hnone r tb2.
  assert (Hr : r = (Blocked (OnPendingProxy id0),
                    if key_in (pending_proxies tb) id0 then tb
                    else set_pending_proxies (fun ks => ks ++ [id0]) tb)).
  { subst r. rewrite unmarshal_first_byte.
    rewrite !bool_decide_eq_false_2 by discriminate.
    rewrite bool_decide_eq_true_2 by reflexivity.
    unfold unmarshal_proxy, bind at 1, lift. rewrite Hl2.
    assert (Hgo : (tb0 <- get ;;
                   match dict_get (proxies tb0) id0 with
                   | Some p => ret p
                   | None =>
                       (if key_in (pending_proxies tb0) id0 then ret tt
                        else modify (set_pending_proxies
                                       (fun ks => ks ++ [id0]))) ;;;
                       block (OnPendingProxy id0)
                   end) tb
                  = (Blocked (OnPendingProxy id0),
                     if key_in (pending_proxies tb) id0 then tb
                     else set_pending_proxies (fun ks => ks ++ [id0]) tb)).
    { unfold bind, get. rewrite Hnone.
      destruct (key_in (pending_proxies tb) id0); reflexivity. }
    destruct id0; try exact Hgo. exfalso. by eapply Hnt. }
  assert (Hpend : key_in (pending_proxies (snd r)) id0 = true).
  { rewrite Hr. cbn [snd].
    destruct (key_in (pending_proxies tb) id0) eqn:Hk; [exact Hk|].
    cbn. apply key_in_app_self. }
  assert (Hprox : proxies (snd r) = proxies tb).
  { rewrite Hr. cbn [snd].
    destruct (key_in (pending_proxies tb) id0); reflexivity. }
  split; [by rewrite Hr|]. split; [exact Hpend|]. split; [exact Hprox|].
  subst tb2. rewrite (unmarshal_introduction E n' id0 opmask kind b1 _ Hl1).
  cbn [snd]. rewrite Hpend. cbn. split; [apply key_in_del|apply dict_get_set].
Qed.

Lemma reference_before_introduction_witness :
  let b1 := [ "("; x02; "i"; x07; x02; "i"; x00; x02; "i"; x00 ]%byte in
  let b2 := [ "i"; x07 ]%byte in
  let r := unmarshal Sample.externals 1 (tag_p :: b2) (tabs init) in
  fst r = Blocked (OnPendingProxy (PyInt 7))
  /\ pending_proxies (snd r) = [PyInt 7]
  /\ dict_get
       (proxies (snd (unmarshal Sample.externals 1 (tag_p :: b1) (snd r))))
       (PyInt 7)
     = Some (PyObject 5007).
Proof.
  intros b1 b2 r.
  destruct (reference_before_introduction Sample.externals 0 0
              (PyInt 7) (PyInt 0) (PyInt 0) b1 b2 (tabs init)
              eq_refl eq_refl ltac:(discriminate) eq_refl)
    as (H1 & _ & _ & _ & H5).
  split; [exact H1|]. split; [reflexivity|exact H5].
Defined.

Lemma unmarshal_parts_plain_then (E : Externals)
    (rec : bytes -> M tables pyobj) (items : list pyobj) :
  Forall (fun x => (forall tb, rec (encode E x) tb = (Return x, tb))
                   /\ Z.of_nat (length (encode E x)) < 2 ^ 32) items ->
  forall tail rounds parts tb,
    unmarshal_parts rec (length items + rounds) (segments E items ++ tail)
      parts tb
    = unmarshal_parts rec rounds tail (parts ++ items) tb.
Proof.
  induction 1 as [|x items [Hx Hlen] _ IH]; intros tail rounds parts tb.
  - cbn. by rewrite app_nil_r.
  - unfold segments. cbn [map concat]. fold (segments E items).
    unfold segment at 1, u32_bytes at 1.
    cbn [length Nat.add app unmarshal_parts].
    unfold size_size. cbn [take drop]. rewrite take_0, !drop_0.
    fold (u32_bytes (Z.of_nat (length (encode E x)))).
    unfold bind at 1, lift. rewrite unpack_u32_bytes by lia.
    rewrite <- !app_assoc.
    rewrite Nat2Z.id, take_app_length, drop_app_length.
    unfold bind at 1. rewrite Hx.
    rewrite IH. by rewrite <- app_assoc.
Qed.

(** X7. Malformed payloads raise and leave the proxy tables alone.  A tuple
    payload that ends inside a length prefix, after any number of complete
    elements that are plain values, raises the [struct] error.  An
    introduction tuple with fewer than three elements raises [IndexError];
    one whose fourth element is a value without a [startswith] attribute
    (an int, a tuple, or a builtin immutable other than a unicode string)
    raises [AttributeError].  An origin reference whose identity is an int
    that is not in [proxied_objects] raises [KeyError].  An error of the
    codec is passed on. *)
Theorem unmarshal_malformed (E : Externals) (n : nat) (tb : tables) :
  (forall items junk,
     Forall (fun x => plain E x /\ (depth x <= n)%nat
                      /\ Z.of_nat (length (encode E x)) < 2 ^ 32) items ->
     (0 < length junk < 4)%nat ->
     unmarshal E (S n) (tag_t :: segments E items ++ junk) tb
     = (Raise StructError, tb))
  /\ (forall b xs, loads E b = Return (PyTuple xs) -> (length xs < 3)%nat ->
        unmarshal E (S n) (tag_p :: b) tb = (Raise IndexError, tb))
  /\ (forall b x0 x1 x2 x3 xs,
        loads E b = Return (PyTuple (x0 :: x1 :: x2 :: x3 :: xs)) ->
        lacks_startswith x3 = true ->
        unmarshal E (S n) (tag_p :: b) tb = (Raise AttributeError, tb))
  /\ (forall b i, loads E b = Return (PyInt i) ->
        proxied_objects tb !! i = None ->
        unmarshal E (S n) (tag_o :: b) tb = (Raise KeyError, tb))
  /\ (forall b e, loads E b = Raise e ->
        unmarshal E (S n) (tag_s :: b) tb = (Raise e, tb)
        /\ unmarshal E (S n) (tag_p :: b) tb = (Raise e, tb)
        /\ unmarshal E (S n) (tag_o :: b) tb = (Raise e, tb)).
Proof.
  split; [|split; [|split; [|split]]].
  - intros items junk Hitems Hlen. rewrite unmarshal_first_byte.
    rewrite bool_decide_eq_false_2 by discriminate.
    rewrite bool_decide_eq_true_2 by reflexivity.
    pose proof (segments_length E items) as Hseg.
    replace (length (tag_t :: segments E items ++ junk))
      with (length items
            + S (length (segments E items) - length items + length junk))%nat
      by (cbn [length]; rewrite length_app; lia).
    rewrite unmarshal_parts_plain_then.
    + destruct junk as [|a [|b [|c [|d junk]]]]; cbn in Hlen; try lia;
        reflexivity.
    + eapply Forall_impl; [exact Hitems|].
      intros x (Hp & Hd & Hl). split; [|exact Hl].
      intros tb'. exact (proj2 (round_trip_plain E n x Hp Hd) tb').
  - intros b xs Hl Hlen. rewrite unmarshal_first_byte.
    rewrite !bool_decide_eq_false_2 by discriminate.
    rewrite bool_decide_eq_true_2 by reflexivity.
    unfold unmarshal_proxy, bind at 1, lift. rewrite Hl.
    rewrite bool_decide_eq_false_2 by lia.
    destruct xs as [|a [|b' [|c xs]]]; cbn in Hlen; try lia; reflexivity.
  - intros b x0 x1 x2 x3 xs Hl Hns. rewrite unmarshal_first_byte.
    rewrite !bool_decide_eq_false_2 by discriminate.
    rewrite bool_decide_eq_true_2 by reflexivity.
    unfold unmarshal_proxy, bind at 1, lift. rewrite Hl.
    rewrite bool_decide_eq_true_2 by (cbn; lia).
    cbn [lookup list_lookup]. cbn.
    destruct x3; try reflexivity. discriminate Hns.
  - intros b i Hl Hk. rewrite unmarshal_first_byte.
    rewrite !bool_decide_eq_false_2 by discriminate.
    rewrite bool_decide_eq_true_2 by reflexivity.
    unfold unmarshal_origin, bind, lift, get. rewrite Hl.
    cbn [lookup_identity]. rewrite Hk. reflexivity.
  - intros b e He. repeat split; rewrite unmarshal_first_byte;
      repeat (rewrite bool_decide_eq_false_2 by discriminate);
      rewrite bool_decide_eq_true_2 by reflexivity;
      unfold unmarshal_proxy, unmarshal_origin, bind, lift; rewrite He;
      reflexivity.
Qed.

(** * Further properties of the response handlers *)

(** X8. A handler cell hands over one message: after [set(m)] the message
    is what [get()] shows and what [wait()] returns; [wait()] clears the
    cell, so that [get()] then shows nothing and a second [wait()] parks;
    a [set()] without message in between wakes the owner without replacing
    the message; the other handlers are not touched. *)
Theorem handler_set_wait (h : nat) (m : Message) (c : conn) :
  let c1 := snd (handler_set h (Some m) c) in
  let c2 := snd (handler_wait h c1) in
  handler_get h c1 = Some m
  /\ handler_get h (snd (handler_set h None c1)) = Some m
  /\ fst (handler_wait h c1) = Return (Some m)
  /\ handler_get h c2 = None
  /\ handler_wait h c2 = (Blocked (OnHandler h), c2)
  /\ syncrequest (heap c2 h) = syncrequest (heap c h)
  /\ thread (heap c2 h) = thread (heap c h)
  /\ (forall h', h' <> h -> heap c2 h' = heap c h')
  /\ response_handlers c2 = response_handlers c.
Proof.
  cbv zeta.
  unfold handler_wait, handler_set, handler_clear, handler_get, upd_handler,
    bind, get, modify, ret, block.
  cbn. rewrite !decide_True by reflexivity. cbn.
  rewrite !decide_True by reflexivity. cbn.
  repeat split.
  intros h' Hh'. rewrite !decide_False by exact Hh'. reflexivity.
Qed.

(** * Further properties of [send_request] and [__handle] *)

Lemma register_handler_counts (tid : Z) (mt : MessageType.t) (c : conn) :
  let c2 := snd (register_handler tid mt c) in
  processing c2 = processing c /\ responses c2 = responses c
  /\ requests c2 = requests c /\ receiving c2 = receiving c
  /\ request_count c2 = request_count c /\ istream c2 = istream c
  /\ waiting c2
     = (if bool_decide (mt = MessageType.syncrequest) then waiting c + 1
        else waiting c)
  /\ notifies c2
     = (if bool_decide (mt = MessageType.syncrequest)
           && bool_decide (processing c = waiting c + 1)
        then S (notifies c) else notifies c).
Proof.
  unfold register_handler, ResponseHandler_new, set_syncrequest, upd_handler,
    notify, bind, get, modify, ret.
  case_bool_decide as Hmt; cbn.
  - destruct (bool_decide (processing c = waiting c + 1)); cbn; repeat split.
  - repeat split.
Qed.

Lemma send_request_begin_state (E : Externals) (fuel : nat) (tid : Z)
    (mt : MessageType.t) (args : pyobj) (c c1 : conn)
    (mt' : MessageType.t) (args' : pyobj) :
  open c = true ->
  rewrap E fuel tid mt args c = (Return (mt', args'), c1) ->
  exists tb tb' o,
    c1 = upd_tabs (fun _ => tb) c
    /\ snd (send_request_begin E fuel tid mt args c)
       = upd_ostream (fun _ => o)
           (upd_tabs (fun _ => tb') (snd (register_handler tid mt' c1))).
Proof.
  intros Hopen Hrewrap.
  destruct (rewrap_frame _ _ _ _ _ _ _ _ Hrewrap) as [tb Hc1].
  destruct (register_handler_spec tid mt' c1) as (c2 & Hreg & _).
  destruct (send_message_frame E fuel mt' args' c2) as (tb3 & o3 & Hsend).
  exists tb, tb3, o3. split; [exact Hc1|].
  unfold send_request_begin, bind at 1, get.
  rewrite Hopen. cbn [negb]. unfold bind at 1. rewrite Hrewrap.
  unfold bind at 1. cbn [fst snd]. rewrite Hreg. cbn [snd].
  rewrite <- Hsend. unfold bind, ret.
  destruct (send_message E fuel mt' args' c2) as [[u|e|b|] c3]; reflexivity.
Qed.

(** X9. The counters in [send_request]: a request that goes out as a
    syncrequest raises [waiting] by one and notifies the scheduling
    condition exactly when [processing] equals the new [waiting]; any other
    request leaves [waiting] alone and notifies nobody.  [processing],
    [responses], the queue of requests, [receiving] and the input stream
    are never touched. *)
Theorem send_request_counters (E : Externals) (fuel : nat) (tid : Z)
    (mt : MessageType.t) (args : pyobj) (c c1 : conn)
    (mt' : MessageType.t) (args' : pyobj) :
  open c = true ->
  rewrap E fuel tid mt args c = (Return (mt', args'), c1) ->
  let c' := snd (send_request_begin E fuel tid mt args c) in
  processing c' = processing c /\ responses c' = responses c
  /\ requests c' = requests c /\ receiving c' = receiving c
  /\ istream c' = istream c
  /\ waiting c'
     = (if bool_decide (mt' = MessageType.syncrequest) then waiting c + 1
        else waiting c)
  /\ notifies c'
     = (if bool_decide (mt' = MessageType.syncrequest)
           && bool_decide (processing c = waiting c + 1)
        then S (notifies c) else notifies c).
Proof.
  intros Hopen Hrewrap c'.
  destruct (send_request_begin_state _ _ _ _ _ _ _ _ _ Hopen Hrewrap)
    as (tb & tb' & o & Hc1 & Hc').
  destruct (register_handler_counts tid mt' c1)
    as (H1 & H2 & H3 & H4 & _ & H6 & H7 & H8).
  subst c'. rewrite Hc'.
  remember (snd (register_handler tid mt' c1)) as c2 eqn:Hc2.
  cbn. rewrite H1, H2, H3, H4, H6, H7, H8. subst c1. repeat split.
Qed.

Lemma send_request_counters_witness :
  let c := Sample.serving_state in
  let c' := snd (send_request_begin Sample.externals 2 1
                   (MessageType.request 0) PyNone c) in
  open c = true /\ waiting c' = 1 /\ notifies c' = 1%nat
  /\ processing c' = 1.
Proof.
  intros c c'.
  destruct (send_request_counters Sample.externals 2 1
              (MessageType.request 0) PyNone c
              (snd (rewrap Sample.externals 2 1 (MessageType.request 0)
                      PyNone c))
              MessageType.syncrequest
              (PyTuple [PyInt 3; PyStr [tag_s; "N"%byte]])
              eq_refl eq_refl)
    as (H1 & _ & _ & _ & _ & H6 & H7).
  split; [reflexivity|]. split; [exact H6|]. split; [exact H7|exact H1].
Defined.

Lemma leave_handle_state (tid : Z) (m : Message) (c : conn) :
  leave_handle tid m c
  = (if negb (in_response_types (mtype m))
     then upd_request_count (alter (fun n => n - 1) tid) c else c).
Proof. reflexivity. Qed.

(** X10. When the handler of an inbound request returns [result],
    [__handle] returns it too, after releasing the processing slot
    (notifying the condition if [processing] reached zero) and writing one
    response frame that carries the marshaled result; the thread's
    [request_count], raised on entry, is lowered again on exit. *)
Theorem handle_request_success (E : Externals)
    (request_handler : Z -> option (pyobj -> M conn pyobj))
    (fuel : nat) (tid : Z) (m : Message) (c c1 : conn) (result : pyobj)
    (p : bytes) (tb : tables) :
  in_response_types (mtype m) = false ->
  dispatch E request_handler fuel m (enter_handle tid m c)
  = (Return result, c1) ->
  marshal E fuel result (tabs c1) = (Return p, tb) ->
  let r := handle E request_handler fuel tid m c in
  fst r = Return result
  /\ processing (snd r) = processing c1 - 1
  /\ notifies (snd r)
     = (if bool_decide (processing c1 - 1 = 0) then S (notifies c1)
        else notifies c1)
  /\ ostream (snd r)
     = ostream c1 ++ [{| mtype := MessageType.response; payload := p |}]
  /\ request_count (snd r) = alter (fun n => n - 1) tid (request_count c1)
  /\ (request_count c1 = request_count (enter_handle tid m c) ->
      request_count_of (snd r) tid = request_count_of c tid).
Proof.
  intros Hreq Hd Hp r.
  assert (Hr : r = (Return result,
            upd_request_count (alter (fun n => n - 1) tid)
              (upd_ostream (fun o => o ++ [{| mtype := MessageType.response;
                                            payload := p |}])
                 (upd_tabs (fun _ => tb)
                    ((if bool_decide (processing c1 - 1 = 0)
                      then upd_notifies S else fun x => x)
                       (upd_processing (fun q => q - 1) c1)))))).
  { subst r. unfold handle, bind at 1, modify at 1.
    unfold finally, try_except. unfold bind at 1. rewrite Hd.
    rewrite Hreq. cbn [negb].
    unfold send_response, send_message, on_tables, notify, bind, get,
      modify, ret. cbn.
    destruct (bool_decide (processing c1 - 1 = 0)); cbn; rewrite Hp;
      cbn; unfold leave_handle; rewrite Hreq; reflexivity. }
  rewrite Hr. cbn [fst snd].
  split; [reflexivity|]. split.
  { destruct (bool_decide (processing c1 - 1 = 0)); reflexivity. }
  split.
  { destruct (bool_decide (processing c1 - 1 = 0)); reflexivity. }
  split.
  { destruct (bool_decide (processing c1 - 1 = 0)); reflexivity. }
  assert (Hrc : request_count
            (upd_request_count (alter (fun n => n - 1) tid)
              (upd_ostream (fun o => o ++ [{| mtype := MessageType.response;
                                            payload := p |}])
                 (upd_tabs (fun _ => tb)
                    ((if bool_decide (processing c1 - 1 = 0)
                      then upd_notifies S else fun x => x)
                       (upd_processing (fun q => q - 1) c1)))))
            = alter (fun n => n - 1) tid (request_count c1)).
  { destruct (bool_decide (processing c1 - 1 = 0)); reflexivity. }
  split; [exact Hrc|].
  intros Hsame. unfold request_count_of. rewrite Hrc, Hsame.
  unfold enter_handle. rewrite Hreq. cbn.
  rewrite lookup_alter_eq, lookup_insert_eq. cbn.
  destruct (request_count c !! tid); cbn; lia.
Qed.

Lemma handle_request_success_witness :
  let m := {| mtype := MessageType.request 0;
              payload := [tag_s; "N"%byte] |} in
  let r := handle Sample.externals Sample.request_handler 1 1 m
             Sample.request_taken in
  fst r = Return PyNone
  /\ processing (snd r) = 0
  /\ ostream (snd r)
     = [{| mtype := MessageType.response; payload := [tag_s; "N"%byte] |}]
  /\ request_count_of (snd r) 1 = 0.
Proof.
  intros m r.
  destruct (handle_request_success Sample.externals Sample.request_handler
              1 1 m Sample.request_taken
              (enter_handle 1 m Sample.request_taken) PyNone
              [tag_s; "N"%byte] (tabs Sample.request_taken)
              eq_refl eq_refl eq_refl)
    as (H1 & H2 & _ & H4 & _ & H6).
  split; [exact H1|]. split; [exact H2|]. split; [exact H4|].
  exact (H6 eq_refl).
Defined.

(** X11. For a response frame [__handle] returns the unmarshaled payload,
    and for an exception frame it raises the unmarshaled payload; in both
    cases no frame is written, no counter moves and the thread's
    [request_count] is not touched: only the proxy tables may have
    changed, by the unmarshaling. *)
Theorem handle_response_or_exception (E : Externals)
    (request_handler : Z -> option (pyobj -> M conn pyobj))
    (fuel : nat) (tid : Z) (m : Message) (c : conn) (v : pyobj)
    (tb : tables) :
  unmarshal E fuel (payload m) (tabs c) = (Return v, tb) ->
  (mtype m = MessageType.response ->
     handle E request_handler fuel tid m c
     = (Return v, upd_tabs (fun _ => tb) c))
  /\ (mtype m = MessageType.exception ->
      handle E request_handler fuel tid m c
      = (Raise (Failure v), upd_tabs (fun _ => tb) c)).
Proof.
  intros Hu. destruct m as [mt pl]. cbn [mtype payload] in *.
  assert (Hresp : in_response_types MessageType.response = true)
    by reflexivity.
  assert (Hexc : in_response_types MessageType.exception = true)
    by reflexivity.
  assert (Hc : enter_handle tid {| mtype := mt; payload := pl |} c
               = (if negb (in_response_types mt)
                  then enter_handle tid {| mtype := mt; payload := pl |} c
                  else c)).
  { unfold enter_handle. cbn [mtype]. by destruct (in_response_types mt). }
  split; intros ->;
    unfold handle, bind at 1, modify at 1; rewrite Hc;
    rewrite ?Hresp, ?Hexc; cbn [negb];
    unfold finally, try_except, dispatch; cbn [mtype payload];
    unfold bind, on_tables; cbv beta; rewrite Hu;
    destruct fuel; cbn [message_handlers];
    unfold ret, raise, modify, leave_handle; cbn [mtype];
    rewrite ?Hresp, ?Hexc; cbn;
    rewrite ?bool_decide_eq_true_2 by reflexivity; reflexivity.
Qed.

Lemma handle_response_or_exception_witness :
  handle Sample.externals Sample.request_handler 1 1 Sample.peer_response
    Sample.two_outstanding
  = (Return PyNone,
     upd_tabs (fun _ => tabs Sample.two_outstanding) Sample.two_outstanding).
Proof.
  exact (proj1 (handle_response_or_exception Sample.externals
                  Sample.request_handler 1 1 Sample.peer_response
                  Sample.two_outstanding PyNone
                  (tabs Sample.two_outstanding) eq_refl) eq_refl).
Defined.

(** * Further properties of [__waitForResponse] *)

Section KeepsAt.
Variable R : conn -> conn -> Prop.
Hypothesis R_refl : forall c, R c c.
Hypothesis R_trans : forall c1 c2 c3, R c1 c2 -> R c2 c3 -> R c1 c3.

Lemma keeps_at_ret {A} (a : A) (c : conn) : keeps_at R (ret a) c.
Proof. apply R_refl. Qed.

Lemma keeps_at_raise {A} (e : exn) (c : conn) :
  keeps_at R (@raise conn A e) c.
Proof. apply R_refl. Qed.

Lemma keeps_at_block {A} (b : blockpoint) (c : conn) :
  keeps_at R (@block conn A b) c.
Proof. apply R_refl. Qed.

Lemma keeps_at_lift {A} (o : outcome A) (c : conn) : keeps_at R (lift o) c.
Proof. apply R_refl. Qed.

Lemma keeps_at_bind {A B} (m : M conn A) (k : A -> M conn B) (c : conn) :
  keeps_at R m c ->
  (forall a c1, m c = (Return a, c1) -> keeps_at R (k a) c1) ->
  keeps_at R (bind m k) c.
Proof.
  unfold keeps_at, bind. intros Hm Hk.
  destruct (m c) as [[a|e|b|] c1] eqn:Hmc; cbn [snd] in *; try exact Hm.
  eapply R_trans; [exact Hm | apply (Hk a c1 eq_refl)].
Qed.

Lemma keeps_at_get {B} (k : conn -> M conn B) (c : conn) :
  keeps_at R (k c) c -> keeps_at R (bind get k) c.
Proof. intros Hk. exact Hk. Qed.

Lemma keeps_at_finally {A} (m : M conn A) (f : M conn unit) (c : conn) :
  keeps_at R m c -> (forall c1, keeps_at R f c1) ->
  keeps_at R (finally m f) c.
Proof.
  unfold keeps_at, finally. intros Hm Hf.
  destruct (m c) as [[a|e|b|] c1]; cbn [snd] in *; try exact Hm;
    specialize (Hf c1); destruct (f c1) as [[u|e'|b'|] c2]; cbn [snd] in *;
    eapply R_trans; eassumption.
Qed.

Lemma keeps_at_modify (f : conn -> conn) (c : conn) :
  R c (f c) -> keeps_at R (modify f) c.
Proof. intros Hf. exact Hf. Qed.
End KeepsAt.

Lemma only_heap_refl (c : conn) : only_heap c c.
Proof. unfold only_heap. by destruct c. Qed.

Lemma only_heap_trans (c1 c2 c3 : conn) :
  only_heap c1 c2 -> only_heap c2 c3 -> only_heap c1 c3.
Proof.
  unfold only_heap. destruct c1, c2, c3. cbn. intros H12 H23.
  inversion H12. inversion H23. subst. reflexivity.
Qed.

Lemma same_istream_refl (c : conn) : same_istream c c.
Proof. reflexivity. Qed.

Lemma same_istream_trans (c1 c2 c3 : conn) :
  same_istream c1 c2 -> same_istream c2 c3 -> same_istream c1 c3.
Proof. unfold same_istream. congruence. Qed.

Lemma only_heap_upd_handler (h : nat) (f : ResponseHandler -> ResponseHandler)
    (c : conn) :
  keeps_at only_heap (upd_handler h f) c.
Proof. unfold keeps_at, only_heap. cbn. by destruct c. Qed.

Lemma only_heap_first_handler (c : conn) : keeps_at only_heap first_handler c.
Proof.
  unfold keeps_at, first_handler, bind, get.
  destruct (response_handlers c); apply only_heap_refl.
Qed.

Lemma only_heap_handler_wait (h : nat) (c : conn) :
  keeps_at only_heap (handler_wait h) c.
Proof.
  unfold handler_wait. apply keeps_at_get.
  destruct (event (heap c h)); [|apply only_heap_refl].
  apply keeps_at_bind; [apply only_heap_trans|apply only_heap_upd_handler|].
  intros _ c1 _. apply only_heap_refl.
Qed.

(** The guard of the loop only looks at the state. *)
Lemma waitForResponse_guard_state (h : nat) (m : option Message) (c c' : conn)
    (r : outcome bool) :
  waitForResponse_guard h m c = (r, c') -> c' = c.
Proof.
  unfold waitForResponse_guard, bind, get, first_handler, ret.
  destruct (open c && is_none m); [|intros Hr; congruence].
  destruct (receiving c); [intros Hr; congruence|].
  cbn. destruct (response_handlers c); cbn; intros Hr; congruence.
Qed.

Lemma only_heap_loop (h : nat) (rounds : nat) :
  forall m c, keeps_at only_heap (waitForResponse_loop rounds h m) c.
Proof.
  induction rounds as [|r IH]; intros m c; cbn [waitForResponse_loop];
    (apply keeps_at_bind; [apply only_heap_trans| |]);
    try (unfold keeps_at;
         destruct (waitForResponse_guard h m c) as [g c0] eqn:Hg;
         rewrite (waitForResponse_guard_state _ _ _ _ _ Hg);
         apply only_heap_refl);
    intros g c1 _; (destruct g; [|apply only_heap_refl]).
  - apply only_heap_refl.
  - apply keeps_at_bind;
      [apply only_heap_trans|apply only_heap_first_handler|].
    intros first c2 _. apply keeps_at_bind; [apply only_heap_trans| |].
    + case_bool_decide; [apply only_heap_refl|apply only_heap_upd_handler].
    + intros _ c3 _. apply keeps_at_bind;
        [apply only_heap_trans|apply only_heap_handler_wait|].
      intros m' c4 _. apply IH.
Qed.

Lemma only_heap_wait (h : nat) (c : conn) :
  keeps_at only_heap (waitForResponse_wait h) c.
Proof.
  unfold waitForResponse_wait. apply keeps_at_get.
  apply keeps_at_bind; [apply only_heap_trans| |].
  - destruct (is_none (handler_get h c));
      [apply only_heap_refl|apply only_heap_upd_handler].
  - intros _ c1 _. apply only_heap_loop.
Qed.

(** When the loop is left, its guard is false. *)
Lemma waitForResponse_loop_exit (h : nat) (rounds : nat) :
  forall m c m' c',
    waitForResponse_loop rounds h m c = (Return m', c') ->
    waitForResponse_guard h m' c' = (Return false, c').
Proof.
  induction rounds as [|r IH]; intros m c m' c'; cbn [waitForResponse_loop];
    unfold bind at 1;
    destruct (waitForResponse_guard h m c) as [[g| | |] c0] eqn:Hg;
    try discriminate;
    pose proof (waitForResponse_guard_state _ _ _ _ _ Hg) as ->;
    (destruct g; [|intros Hr; inversion Hr; subst; exact Hg]).
  - discriminate.
  - unfold bind at 1.
    destruct (first_handler c) as [[first| | |] c1]; try discriminate.
    unfold bind at 1.
    destruct ((if bool_decide (h = first) then ret tt
               else handler_set first None) c1) as [[u| | |] c2];
      try discriminate.
    unfold bind at 1.
    destruct (handler_wait h c2) as [[m1| | |] c3]; try discriminate.
    apply IH.
Qed.

Lemma waitForResponse_wait_exit (h : nat) (c c1 : conn) :
  waitForResponse_wait h c = (Return None, c1) ->
  open c1 = true -> may_read_response h c.
Proof.
  intros Hw Hopen.
  pose proof (only_heap_wait h c) as Hheap.
  unfold keeps_at in Hheap. rewrite Hw in Hheap. cbn [snd] in Hheap.
  assert (Hloop : waitForResponse_guard h None c1 = (Return false, c1)).
  { revert Hw. unfold waitForResponse_wait, bind at 1, get. unfold bind at 1.
    destruct ((if is_none (handler_get h c) then ret tt
               else handler_clear h) c) as [[u| | |] c0]; try discriminate.
    apply waitForResponse_loop_exit. }
  assert (Hread : may_read_response h c1).
  { revert Hloop. unfold waitForResponse_guard, first_handler.
    unfold bind, get, ret, raise.
    rewrite Hopen. cbn [andb is_none].
    destruct (receiving c1) eqn:Hrecv; [discriminate|].
    destruct (response_handlers c1) as [|first hs] eqn:Hhs; [discriminate|].
    intros Hr. inversion Hr as [Hb].
    apply orb_false_iff in Hb as [Hfirst Hcount].
    apply negb_false_iff, bool_decide_eq_true in Hfirst. subst first.
    split; [exact Hopen|]. split; [exact Hrecv|]. split; [eauto|].
    apply andb_false_iff in Hcount as [Hx|Hx];
      apply bool_decide_eq_false in Hx; lia. }
  unfold only_heap in Hheap. rewrite Hheap in Hread.
  exact Hread.
Qed.

Lemma same_istream_finish (h : nat) (m : option Message) (c : conn) :
  keeps_at same_istream (waitForResponse_finish h m) c.
Proof.
  unfold keeps_at, same_istream, waitForResponse_finish, del_first_handler,
    bind, get, modify, ret, raise.
  destruct (syncrequest (heap c h)); cbn;
    destruct (negb (open c) && is_none m); cbn;
    destruct (response_handlers c); reflexivity.
Qed.

Lemma same_istream_receive_no_read (m : option Message) (c : conn) :
  is_none m && open c = false ->
  keeps_at same_istream (waitForResponse_receive m) c.
Proof.
  intros Hno.
  unfold keeps_at, same_istream, waitForResponse_receive, bind at 1, get.
  rewrite Hno.
  destruct (open c); [|reflexivity].
  destruct m as [m'|]; [|reflexivity].
  unfold del_first_handler, bind, get, modify, ret.
  destruct (in_response_types (mtype m')); cbn; [|reflexivity].
  destruct (response_handlers c); reflexivity.
Qed.

Lemma only_heap_istream (c c' : conn) : only_heap c c' -> istream c' = istream c.
Proof. unfold only_heap. intros ->. reflexivity. Qed.

(** X12. [__waitForResponse] takes frames off the input stream only when
    it is entered in a state where the connection is open, no thread is
    receiving, the caller's handler is at the head of [response_handlers],
    and [processing] is not positive or does not exceed [waiting]; entered
    in any other state it leaves the input stream as it is. *)
Theorem waitForResponse_read_condition (h : nat) (c : conn) :
  istream (snd (waitForResponse h c)) <> istream c ->
  may_read_response h c.
Proof.
  intros Hne.
  destruct (waitForResponse_wait h c) as [r1 c1] eqn:Hw.
  pose proof (only_heap_wait h c) as Hheap.
  unfold keeps_at in Hheap. rewrite Hw in Hheap. cbn [snd] in Hheap.
  apply only_heap_istream in Hheap.
  assert (Hrest : forall m0,
            r1 = Return m0 -> is_none m0 && open c1 = false ->
            istream (snd (waitForResponse h c)) = istream c).
  { intros m0 -> Hno. unfold waitForResponse, finally. unfold bind at 1.
    rewrite Hw.
    assert (Hk : keeps_at same_istream
              (m <- waitForResponse_receive m0 ;;
               waitForResponse_finish h m) c1).
    { apply keeps_at_bind;
        [apply same_istream_trans
        |apply same_istream_receive_no_read; exact Hno|].
      intros m c2 _. apply same_istream_finish. }
    unfold keeps_at, same_istream in Hk.
    destruct ((m <- waitForResponse_receive m0 ;;
               waitForResponse_finish h m) c1) as [[a|e|b|] c2];
      cbn in *; congruence. }
  destruct r1 as [m0|e|b|].
  - destruct m0 as [mm|].
    + exfalso. apply Hne. apply (Hrest (Some mm)); reflexivity.
    + destruct (open c1) eqn:Hopen.
      * exact (waitForResponse_wait_exit h c c1 Hw Hopen).
      * exfalso. apply Hne. apply (Hrest None); reflexivity.
  - exfalso. apply Hne. unfold waitForResponse, finally. unfold bind at 1.
    rewrite Hw. cbn. exact Hheap.
  - exfalso. apply Hne. unfold waitForResponse, finally. unfold bind at 1.
    rewrite Hw. cbn. exact Hheap.
  - exfalso. apply Hne. unfold waitForResponse, finally. unfold bind at 1.
    rewrite Hw. cbn. exact Hheap.
Qed.

Lemma waitForResponse_read_condition_witness :
  istream (snd (waitForResponse 0 Sample.nested_waiting))
  <> istream Sample.nested_waiting
  /\ may_read_response 0 Sample.nested_waiting.
Proof.
  assert (Hne : istream (snd (waitForResponse 0 Sample.nested_waiting))
                <> istream Sample.nested_waiting)
    by (vm_compute; discriminate).
  split; [exact Hne|].
  exact (waitForResponse_read_condition 0 Sample.nested_waiting Hne).
Defined.

(** X13. A thread whose handler has no message and is not at the head of
    [response_handlers] does not read: on an open connection where nobody
    is receiving, [__waitForResponse] sets the event of the head handler,
    so that its owner looks at the state again, and parks on its own
    handler, everything else being left as it was. *)
Theorem waitForResponse_not_head_parks (h first : nat) (rest : list nat)
    (c : conn) :
  open c = true ->
  receiving c = false ->
  event (heap c h) = false ->
  response_handlers c = first :: rest ->
  first <> h ->
  waitForResponse h c
  = (Blocked (OnHandler h), snd (handler_set first None c))
  /\ event (heap (snd (handler_set first None c)) first) = true
  /\ istream (snd (handler_set first None c)) = istream c.
Proof.
  intros Hopen Hrecv Hevent Hlist Hne.
  split; [|split].
  - unfold waitForResponse, finally, waitForResponse_wait.
    unfold bind at 1. unfold bind at 1, get. unfold handler_get.
    rewrite Hevent. cbn [is_none]. unfold bind at 1, ret.
    cbn [waitForResponse_loop]. unfold bind at 1.
    unfold waitForResponse_guard, first_handler.
    unfold bind at 1, get. rewrite Hopen, Hrecv. cbn [andb is_none].
    unfold bind at 1. unfold bind at 1, get. rewrite Hlist.
    unfold ret at 1. unfold ret at 1.
    rewrite (bool_decide_eq_false_2 (h = first)) by congruence.
    cbn [negb orb].
    unfold bind at 1. unfold bind at 1, get. rewrite Hlist. unfold ret at 1.
    rewrite (bool_decide_eq_false_2 (h = first)) by congruence.
    unfold bind at 1.
    unfold handler_set, upd_handler, modify at 1.
    unfold bind at 1, handler_wait. unfold bind at 1, get.
    cbn [heap upd_heap]. rewrite decide_False by congruence.
    rewrite Hevent. reflexivity.
  - cbn. rewrite decide_True by reflexivity. reflexivity.
  - reflexivity.
Qed.

Lemma waitForResponse_not_head_parks_witness :
  waitForResponse 1 Sample.two_outstanding
  = (Blocked (OnHandler 1), snd (handler_set 0%nat None Sample.two_outstanding)).
Proof.
  exact (proj1 (waitForResponse_not_head_parks 1 0 [1%nat]
                  Sample.two_outstanding eq_refl eq_refl eq_refl eq_refl
                  ltac:(discriminate))).
Defined.



(** * How the reader and the waiters work together *)

Lemma counts_allow_read (pr wa : Z) :
  pr <= 0 \/ pr <= wa ->
  bool_decide (pr > 0) && bool_decide (pr > wa) = false.
Proof.
  intros [Hp|Hp].
  - rewrite (bool_decide_eq_false_2 (pr > 0)) by lia. reflexivity.
  - rewrite (bool_decide_eq_false_2 (pr > wa)) by lia. apply andb_false_r.
Qed.

(** X15. Hand-over of a response read by the request loop.  When a thread
    in [__waitForRequest] reads a response or exception frame, it does not
    consume it: [responses] goes up by one, the message is put into the
    handler at the head of [response_handlers], which stays registered, and
    the reader returns nothing.  When the owner of that handler then runs
    [__waitForResponse] it gets exactly that message without reading, the
    handler is removed from the head and [responses] is back at its old
    value. *)
Theorem reader_hands_over_response (h : nat) (hs : list nat) (m : Message)
    (rest : list Message) (c : conn) :
  open c = true -> requests c = [] -> receiving c = false ->
  responses c <= 0 ->
  (processing c <= 0 \/ processing c <= waiting c) ->
  istream c = m :: rest ->
  in_response_types (mtype m) = true ->
  response_handlers c = h :: hs ->
  let r1 := waitForRequest c in
  let r2 := waitForResponse h (snd r1) in
  fst r1 = Return None
  /\ responses (snd r1) = responses c + 1
  /\ response_handlers (snd r1) = h :: hs
  /\ handler_get h (snd r1) = Some m
  /\ receiving (snd r1) = false
  /\ fst r2 = Return (Some m)
  /\ response_handlers (snd r2) = hs
  /\ responses (snd r2) = responses c
  /\ istream (snd r2) = rest
  /\ processing (snd r2) = processing c
  /\ waiting (snd r2)
     = waiting c - (if syncrequest (heap c h) then 1 else 0).
Proof.
  destruct c as [op rc pr wa rs rq hl hp nh cnt tb ist ost nt]. cbn.
  intros -> -> -> Hrs Hcounts -> Hm ->.
  pose proof (counts_allow_read pr wa Hcounts) as Hc.
  unfold waitForRequest, waitForRequest_step, waitForRequest_guard,
    waitForRequest_classify, finally, recv, first_handler, handler_set,
    upd_handler.
  unfold bind, get, modify, ret, raise, block. cbn.
  rewrite (bool_decide_eq_false_2 (rs > 0)) by lia. rewrite Hc. cbn.
  rewrite andb_false_r.
  rewrite (bool_decide_eq_false_2 (0 < 0)%nat) by lia. cbn.
  rewrite Hm. cbn.
  unfold waitForResponse, waitForResponse_wait, waitForResponse_receive,
    waitForResponse_finish, finally, handler_get, handler_clear,
    upd_handler, del_first_handler, notify.
  unfold bind, get, modify, ret, raise. cbn.
  rewrite !decide_True by reflexivity. cbn. rewrite Hm. cbn.
  rewrite !decide_True by reflexivity. cbn.
  destruct (syncrequest (hp h)); cbn; repeat split; lia.
Qed.

Lemma reader_hands_over_response_witness :
  let c := upd_istream (fun _ => [Sample.peer_response])
             Sample.two_outstanding in
  fst (waitForRequest c) = Return None
  /\ fst (waitForResponse 0 (snd (waitForRequest c)))
     = Return (Some Sample.peer_response)
  /\ response_handlers (snd (waitForResponse 0 (snd (waitForRequest c))))
     = [1%nat].
Proof.
  intros c.
  destruct (reader_hands_over_response 0 [1%nat] Sample.peer_response [] c
              eq_refl eq_refl eq_refl ltac:(vm_compute; discriminate)
              ltac:(left; vm_compute; discriminate)
              eq_refl eq_refl eq_refl)
    as (H1 & _ & _ & _ & _ & H6 & H7 & _).
  split; [exact H1|]. split; [exact H6|exact H7].
Defined.

Lemma read_response_queues (m : Message) (rest : list Message)
    (reqs : list Message) :
  in_response_types (mtype m)
  || bool_decide (mtype m = MessageType.syncrequest) = true ->
  Forall (fun q => in_response_types (mtype q)
                   || bool_decide (mtype q = MessageType.syncrequest)
                   = false) reqs ->
  forall c, response_handlers c <> [] ->
    read_response (reqs ++ m :: rest) c
    = (Return m,
       upd_requests (fun q => q ++ reqs) (upd_istream (fun _ => rest) c)).
Proof.
  intros Hm Hreqs. induction Hreqs as [|x reqs Hx _ IH]; intros c Hne.
  - cbn [app read_response].
    unfold bind, modify, first_handler, get, ret. cbn.
    destruct (response_handlers c) eqn:Hh; [congruence|].
    rewrite Hm. destruct c. unfold upd_requests, upd_istream. cbn.
    by rewrite app_nil_r.
  - cbn [app read_response].
    unfold bind at 1, modify at 1. unfold bind at 1, first_handler.
    unfold bind at 1, get. cbn [response_handlers upd_istream].
    destruct (response_handlers c) eqn:Hh; [congruence|].
    unfold ret at 1. rewrite Hx.
    unfold bind at 1, modify at 1. rewrite IH.
    + destruct c. unfold upd_requests, upd_istream. cbn.
      by rewrite <- app_assoc.
    + cbn. rewrite Hh. discriminate.
Qed.

(** X16. Requests read while waiting for a response are kept: when the
    owner of the head handler reads, every plain request that arrives
    before the response is appended to the queue of requests, in arrival
    order, and the response that follows is returned, its handler removed
    from the head; the frames behind the response stay on the input
    stream. *)
Theorem waitForResponse_queues_requests (h : nat) (hs : list nat)
    (reqs : list Message) (m : Message) (rest : list Message) (c : conn) :
  open c = true -> receiving c = false ->
  (processing c <= 0 \/ processing c <= waiting c) ->
  response_handlers c = h :: hs ->
  event (heap c h) = false ->
  istream c = reqs ++ m :: rest ->
  in_response_types (mtype m) = true ->
  Forall (fun q => in_response_types (mtype q)
                   || bool_decide (mtype q = MessageType.syncrequest)
                   = false) reqs ->
  let r := waitForResponse h c in
  fst r = Return (Some m)
  /\ requests (snd r) = requests c ++ reqs
  /\ istream (snd r) = rest
  /\ response_handlers (snd r) = hs
  /\ receiving (snd r) = false
  /\ processing (snd r) = processing c
  /\ responses (snd r) = responses c.
Proof.
  intros Hopen Hrecv Hcounts Hlist Hev Hist Hm Hreqs.
  pose proof (counts_allow_read _ _ Hcounts) as Hc.
  assert (Hread : read_response (reqs ++ m :: rest)
                    (upd_receiving (fun _ => true) c)
                  = (Return m,
                     upd_requests (fun q => q ++ reqs)
                       (upd_istream (fun _ => rest)
                          (upd_receiving (fun _ => true) c)))).
  { apply read_response_queues; [by rewrite Hm|exact Hreqs|].
    cbn. rewrite Hlist. discriminate. }
  cbv zeta.
  enough (Hr : exists c',
             waitForResponse h c = (Return (Some m), c')
             /\ requests c' = requests c ++ reqs
             /\ istream c' = rest
             /\ response_handlers c' = hs
             /\ receiving c' = false
             /\ processing c' = processing c
             /\ responses c' = responses c).
  { destruct Hr as (c' & -> & Hr). exact (conj eq_refl Hr). }
  unfold waitForResponse, waitForResponse_wait. unfold finally.
  unfold bind at 1. unfold bind at 1, get. unfold handler_get.
  rewrite Hev. cbn [is_none]. unfold bind at 1, ret at 1.
  cbn [waitForResponse_loop]. unfold bind at 1.
  unfold waitForResponse_guard, first_handler.
  unfold bind at 1, get. rewrite Hopen, Hrecv. cbn [andb is_none].
  unfold bind at 1. unfold bind at 1, get. rewrite Hlist.
  unfold ret at 1. unfold ret at 1.
  rewrite (bool_decide_eq_true_2 (h = h)) by reflexivity. rewrite Hc.
  cbn [negb orb]. unfold ret at 1.
  unfold bind at 1. unfold waitForResponse_receive.
  unfold bind at 1, get. rewrite Hopen. cbn [is_none andb].
  unfold bind at 1, modify at 1. unfold bind at 1.
  unfold finally at 1. rewrite Hist, Hread.
  unfold modify at 1. rewrite Hm.
  unfold bind at 1, del_first_handler. unfold bind at 1, get.
  cbn [response_handlers upd_receiving upd_requests upd_istream].
  rewrite Hlist. unfold modify at 1. unfold ret at 1.
  unfold waitForResponse_finish, bind, get, modify, ret, notify.
  cbn [heap upd_response_handlers upd_receiving upd_requests upd_istream].
  destruct c as [op rc pr wa rs rq hl hp nh cnt tb ist ost nt].
  cbn in *. subst op.
  destruct (syncrequest (hp h)); cbn; eexists; (split; [reflexivity|]);
    cbn; repeat split.
Qed.

Lemma waitForResponse_queues_requests_witness :
  let req := {| mtype := MessageType.request 0;
                payload := [tag_s; "N"%byte] |} in
  let c := upd_istream (fun _ => [req; req; Sample.peer_response])
             Sample.two_outstanding in
  fst (waitForResponse 0 c) = Return (Some Sample.peer_response)
  /\ requests (snd (waitForResponse 0 c)) = [req; req]
  /\ response_handlers (snd (waitForResponse 0 c)) = [1%nat].
Proof.
  intros req c.
  destruct (waitForResponse_queues_requests 0 [1%nat] [req; req]
              Sample.peer_response [] c
              eq_refl eq_refl ltac:(left; vm_compute; discriminate)
              eq_refl eq_refl eq_refl eq_refl ltac:(repeat constructor))
    as (H1 & H2 & _ & H4 & _).
  split; [exact H1|]. split; [exact H2|exact H4].
Defined.
